(** * The query gateway of [check_users.py]

    A shallow embedding of the read/write classifier, the time-bounded
    cache and [run_query], with the properties of the gateway's
    specification stated and proved over it.

    Conventions of the model.
    - A Python [str] is a [string]; every character is an ASCII code
      point, and the built-ins [strip], [upper], [startswith] and
      [encode] are modelled on ASCII text.
    - [time.time()] yields a whole number of time-units ([Z]).
    - The dictionary [_cache] is a [gmap] from key to entry; a row
      returned by a dictionary cursor is a [gmap] from column to value.
    - The MySQL driver and the clock are the outside world: an abstract
      state with one operation per driver call, each of which may raise.
      The calls made on the driver are logged in the world, so that "the
      database is not contacted" reads "the log did not grow".
    - [search_sql] and the registration of the tools are clients of the
      gateway and are not modelled. *)

From Stdlib Require Import ZArith String Ascii List Lia DecimalString.
From stdpp Require Import base gmap strings list.

Open Scope string_scope.

(** ** Python text built-ins *)

Module Text.

(** [str.isspace] on an ASCII character: tab, line feed, vertical tab,
    form feed, carriage return, the four separators 28..31 and space. *)
Definition isspace (c : ascii) : bool :=
  let n := nat_of_ascii c in
  ((9 <=? n)%nat && (n <=? 13)%nat) || ((28 <=? n)%nat && (n <=? 32)%nat).

Fixpoint lstrip (s : string) : string :=
  match s with
  | EmptyString => EmptyString
  | String c s' => if isspace c then lstrip s' else s
  end.

Fixpoint rstrip (s : string) : string :=
  match s with
  | EmptyString => EmptyString
  | String c s' =>
      match rstrip s' with
      | EmptyString => if isspace c then EmptyString else String c EmptyString
      | r => String c r
      end
  end.

(** [s.strip()] *)
Definition strip (s : string) : string := rstrip (lstrip s).

Definition upper_char (c : ascii) : ascii :=
  let n := nat_of_ascii c in
  if (97 <=? n)%nat && (n <=? 122)%nat then ascii_of_nat (n - 32) else c.

(** [s.upper()] *)
Fixpoint upper (s : string) : string :=
  match s with
  | EmptyString => EmptyString
  | String c s' => String (upper_char c) (upper s')
  end.

(** [s.startswith(p)] *)
Definition startswith (s p : string) : bool := String.prefix p s.

(** [s[:n]] *)
Definition slice_to (n : nat) (s : string) : string := substring 0 n s.

(** [str(n)] for an [int] *)
Definition str_of_int (n : Z) : string := NilZero.string_of_int (Z.to_int n).

(** [s.encode()]: the UTF-8 bytes of ASCII text are its code points. *)
Fixpoint encode (s : string) : list Z :=
  match s with
  | EmptyString => []
  | String c s' => Z.of_N (N_of_ascii c) :: encode s'
  end.

(** The run of characters before the first white space. *)
Fixpoint first_token (s : string) : string :=
  match s with
  | EmptyString => EmptyString
  | String c s' => if isspace c then EmptyString else String c (first_token s')
  end.

Fixpoint all_space (s : string) : bool :=
  match s with
  | EmptyString => true
  | String c s' => isspace c && all_space s'
  end.

End Text.

(** ** MD5 ([hashlib.md5], RFC 1321), on bytes held as [Z] *)

Module Md5.

#[local] Open Scope Z_scope.

Definition w32 (x : Z) : Z := x mod 2 ^ 32.

Definition rotl (x c : Z) : Z :=
  Z.lor (w32 (Z.shiftl x c)) (Z.shiftr x (32 - c)).

Definition not32 (x : Z) : Z := Z.lxor x 0xffffffff.

Definition shifts : list Z :=
  [ 7; 12; 17; 22; 7; 12; 17; 22; 7; 12; 17; 22; 7; 12; 17; 22;
    5; 9; 14; 20; 5; 9; 14; 20; 5; 9; 14; 20; 5; 9; 14; 20;
    4; 11; 16; 23; 4; 11; 16; 23; 4; 11; 16; 23; 4; 11; 16; 23;
    6; 10; 15; 21; 6; 10; 15; 21; 6; 10; 15; 21; 6; 10; 15; 21 ]%Z.

Definition sines : list Z :=
  [ 0xd76aa478; 0xe8c7b756; 0x242070db; 0xc1bdceee; 0xf57c0faf; 0x4787c62a; 0xa8304613; 0xfd469501;
    0x698098d8; 0x8b44f7af; 0xffff5bb1; 0x895cd7be; 0x6b901122; 0xfd987193; 0xa679438e; 0x49b40821;
    0xf61e2562; 0xc040b340; 0x265e5a51; 0xe9b6c7aa; 0xd62f105d; 0x02441453; 0xd8a1e681; 0xe7d3fbc8;
    0x21e1cde6; 0xc33707d6; 0xf4d50d87; 0x455a14ed; 0xa9e3e905; 0xfcefa3f8; 0x676f02d9; 0x8d2a4c8a;
    0xfffa3942; 0x8771f681; 0x6d9d6122; 0xfde5380c; 0xa4beea44; 0x4bdecfa9; 0xf6bb4b60; 0xbebfbc70;
    0x289b7ec6; 0xeaa127fa; 0xd4ef3085; 0x04881d05; 0xd9d4d039; 0xe6db99e5; 0x1fa27cf8; 0xc4ac5665;
    0xf4292244; 0x432aff97; 0xab9423a7; 0xfc93a039; 0x655b59c3; 0x8f0ccc92; 0xffeff47d; 0x85845dd1;
    0x6fa87e4f; 0xfe2ce6e0; 0xa3014314; 0x4e0811a1; 0xf7537e82; 0xbd3af235; 0x2ad7d2bb; 0xeb86d391 ]%Z.

(** Little-endian bytes of a number, [n] of them. *)
Fixpoint le_bytes (n : nat) (x : Z) : list Z :=
  match n with
  | O => []
  | S n' => (x mod 256)%Z :: le_bytes n' (x / 256)%Z
  end.

Fixpoint le_word (bs : list Z) : Z :=
  match bs with
  | [] => 0
  | b :: bs' => b + 256 * le_word bs'
  end.

(** The message, a 1 bit, zeros up to 56 modulo 64, the bit length. *)
Definition pad (msg : list Z) : list Z :=
  let len := Z.of_nat (length msg) in
  msg ++ [128%Z]
      ++ repeat 0%Z (Z.to_nat ((55 - len) mod 64))
      ++ le_bytes 8 (8 * len).

(** Cut a list into pieces of [n] elements; [k] bounds the number of pieces. *)
Fixpoint chunks {A} (k n : nat) (l : list A) : list (list A) :=
  match k with
  | O => []
  | S k' =>
      match l with
      | [] => []
      | _ => firstn n l :: chunks k' n (skipn n l)
      end
  end.

Definition state : Type := Z * Z * Z * Z.

Definition step (m : list Z) (st : state) (i : nat) : state :=
  let '(a, b, c, d) := st in
  let zi := Z.of_nat i in
  let '(f, g) :=
    if (i <? 16)%nat then (Z.lor (Z.land b c) (Z.land (not32 b) d), zi)
    else if (i <? 32)%nat then (Z.lor (Z.land d b) (Z.land (not32 d) c), (5 * zi + 1) mod 16)
    else if (i <? 48)%nat then (Z.lxor (Z.lxor b c) d, (3 * zi + 5) mod 16)
    else (Z.lxor c (Z.lor b (not32 d)), (7 * zi) mod 16) in
  let f' := w32 (f + a + nth i sines 0 + nth (Z.to_nat g) m 0) in
  (d, w32 (b + rotl f' (nth i shifts 0)), b, c)%Z.

Definition block (st : state) (bytes : list Z) : state :=
  let m := map le_word (chunks 16 4 bytes) in
  let '(a0, b0, c0, d0) := st in
  let '(a, b, c, d) := fold_left (step m) (seq 0 64) st in
  (w32 (a0 + a), w32 (b0 + b), w32 (c0 + c), w32 (d0 + d)).

Definition init : state := (0x67452301, 0xefcdab89, 0x98badcfe, 0x10325476)%Z.

(** [hashlib.md5(msg).digest()] *)
Definition digest (msg : list Z) : list Z :=
  let p := pad msg in
  let '(a, b, c, d) := fold_left block (chunks (length p) 64 p) init in
  le_bytes 4 a ++ le_bytes 4 b ++ le_bytes 4 c ++ le_bytes 4 d.

Definition hex_digit (x : Z) : ascii :=
  if (x <? 10)%Z then ascii_of_N (Z.to_N (48 + x)) else ascii_of_N (Z.to_N (87 + x)).

Fixpoint hex (bs : list Z) : string :=
  match bs with
  | [] => EmptyString
  | b :: bs' => String (hex_digit (b / 16)) (String (hex_digit (b mod 16)) (hex bs'))
  end.

(** [hashlib.md5(msg).hexdigest()] *)
Definition hexdigest (msg : list Z) : string := hex (digest msg).

End Md5.

(** ** The classifier and the cache key *)

(** [CACHE_TTL = 300] *)
Definition CACHE_TTL : Z := 300.

Definition write_keywords : list string :=
  ["INSERT"; "UPDATE"; "DELETE"; "ALTER"; "DROP"; "CREATE"; "TRUNCATE"; "REPLACE"].

(** [is_write_query(query)] *)
Definition is_write_query (query : string) : bool :=
  let query_upper := Text.upper (Text.strip query) in
  existsb (fun keyword => Text.startswith query_upper keyword) write_keywords.

(** [get_cache_key(query)] *)
Definition get_cache_key (query : string) : string :=
  Md5.hexdigest (Text.encode query).


(** ** Values, rows and results *)

(** A value a dictionary cursor hands back for one column: [None], an
    [int], a [str], or a value of another driver type (a date, a decimal,
    bytes), kept as the text [str] renders for it. *)
Inductive pyval : Type :=
  | PNone
  | PInt (n : Z)
  | PStr (s : string)
  | POther (text : string).

(** [str(value)] *)
Definition py_str (value : pyval) : string :=
  match value with
  | PNone => "None"
  | PInt n => Text.str_of_int n
  | PStr s => s
  | POther text => text
  end.

(** A row: a dictionary from column name to value. *)
Abbreviation row := (gmap string pyval).

(** [str(value) if value is not None else None] *)
Definition clean_value (value : pyval) : pyval :=
  match value with
  | PNone => PNone
  | _ => PStr (py_str value)
  end.

(** The inner loop of [run_query]: a fresh dictionary that receives, for
    each item of [row], the cleaned value under the same key. *)
Definition clean_row (r : row) : row := clean_value <$> r.

(** The outer loop: [data] collects the cleaned rows in order. *)
Definition clean_rows (results : list row) : list row := map clean_row results.

(** One element of ["cache_entries"] in the report of [get_cache_info]. *)
Record entry_info : Type := EntryInfo {
  key : string;
  age_seconds : Z;
  is_valid : bool;
  row_count : Z
}.

(** The values found in the dictionaries the tools return. *)
Inductive pyobj : Type :=
  | OBool (b : bool)
  | OInt (n : Z)
  | OStr (s : string)
  | ORows (rows : list row)
  | OEntries (entries : list entry_info).

(** What a tool returns: a dictionary literal, keys in source order. *)
Abbreviation dict := (list (string * pyobj)).

(** [d.get(key)] *)
Fixpoint dict_get (key : string) (d : dict) : option pyobj :=
  match d with
  | [] => None
  | (k, v) :: d' => if String.eqb k key then Some v else dict_get key d'
  end.

(** A cache entry: [{"data": ..., "timestamp": ...}]. *)
Record cache_entry : Type := CacheEntry {
  data : list row;
  timestamp : Z
}.

(** ** Exceptions, the driver and the world *)

(** [Error] is [mysql.connector.Error], the class [run_query] catches;
    anything else a call may raise is an [OtherException]. *)
Inductive exn : Type :=
  | Error (msg : string)
  | OtherException (name : string).

Inductive outcome (A : Type) : Type :=
  | Return (a : A)
  | Raise (e : exn).

Arguments Return {A} a.
Arguments Raise {A} e.

(** The calls [run_query] makes on the driver, as they reach the database. *)
Inductive db_call : Type :=
  | Connect
  | Cursor
  | Execute (query : string)
  | Commit
  | Fetchall
  | CursorClose
  | Close.

(** The clock and the MySQL driver over an outside world [E]. *)
Record driver (E : Type) : Type := Driver {
  time_time : E -> Z * E;
  connect : E -> outcome unit * E;
  db_cursor : E -> outcome unit * E;
  cursor_execute : string -> E -> outcome unit * E;
  cursor_rowcount : E -> Z;
  db_commit : E -> outcome unit * E;
  cursor_fetchall : E -> outcome (list row) * E;
  cursor_close : E -> outcome unit * E;
  db_close : E -> outcome unit * E
}.

Arguments time_time {E} d.
Arguments connect {E} d.
Arguments db_cursor {E} d.
Arguments cursor_execute {E} d.
Arguments cursor_rowcount {E} d.
Arguments db_commit {E} d.
Arguments cursor_fetchall {E} d.
Arguments cursor_close {E} d.
Arguments db_close {E} d.

(** The state a call runs in: the module-level [_cache], the outside
    world, and the driver calls made so far. *)
Record world (E : Type) : Type := World {
  _cache : gmap string cache_entry;
  env : E;
  calls : list db_call
}.

Arguments World {E}.
Arguments _cache {E} w.
Arguments env {E} w.
Arguments calls {E} w.

(** Computations that read and write the world and may raise. *)
Definition M (E A : Type) : Type := world E -> outcome A * world E.

Definition ret {E A} (a : A) : M E A := fun w => (Return a, w).

Definition bind {E A B} (m : M E A) (k : A -> M E B) : M E B :=
  fun w =>
    match m w with
    | (Return a, w') => k a w'
    | (Raise e, w') => (Raise e, w')
    end.

Notation "x <- m ;; k" := (bind m (fun x => k))
  (at level 100, m at next level, right associativity).
Notation "m ;;; k" := (bind m (fun _ => k))
  (at level 100, right associativity).

(** [try: body except Error as e: handler(str(e))] *)
Definition try_except_Error {E A} (body : M E A) (handler : string -> M E A) : M E A :=
  fun w =>
    match body w with
    | (Raise (Error msg), w') => handler msg w'
    | r => r
    end.

Section Gateway.

Context {E : Type} (drv : driver E).

(** One call on the driver: it is recorded, and the world moves on. *)
Definition call {A} (c : db_call) (op : E -> outcome A * E) : M E A :=
  fun w =>
    let '(r, e') := op (env w) in
    (r, World (_cache w) e' (calls w ++ [c])).

(** [time.time()] *)
Definition now : M E Z :=
  fun w =>
    let '(t, e') := time_time drv (env w) in
    (Return t, World (_cache w) e' (calls w)).

(** [_cache.get(key)] *)
Definition cache_get (key : string) : M E (option cache_entry) :=
  fun w => (Return (_cache w !! key), w).

(** [_cache[key] = entry] *)
Definition cache_set (key : string) (entry : cache_entry) : M E unit :=
  fun w => (Return tt, World (<[key := entry]> (_cache w)) (env w) (calls w)).

(** [_cache.clear()] *)
Definition cache_clear : M E unit :=
  fun w => (Return tt, World ∅ (env w) (calls w)).

(** [get_db()] *)
Definition get_db : M E unit := call Connect (connect drv).

(** [is_cache_valid(cache_entry, ttl)] *)
Definition is_cache_valid (entry : option cache_entry) (ttl : Z) : M E bool :=
  match entry with
  | None => ret false
  | Some e => t <- now ;; ret (t - timestamp e <? ttl)%Z
  end.

(** [get_cached_query(query)] *)
Definition get_cached_query (query : string) : M E (option (list row)) :=
  let key := get_cache_key query in
  entry <- cache_get key ;;
  valid <- is_cache_valid entry CACHE_TTL ;;
  if valid then ret (data <$> entry) else ret None.

(** [set_cached_query(query, data)] *)
Definition set_cached_query (query : string) (rows : list row) : M E unit :=
  let key := get_cache_key query in
  t <- now ;;
  cache_set key (CacheEntry rows t).

Definition len_rows (rows : list row) : Z := Z.of_nat (length rows).

(** [query[:100] + "..." if len(query) > 100 else query] *)
Definition query_preview (query : string) : string :=
  if (100 <? String.length query)%nat then Text.slice_to 100 query ++ "..." else query.

Definition withheld_result (query : string) : dict :=
  [ ("error", OStr "Write operation detected. This query will modify data.");
    ("query_type", OStr "WRITE");
    ("message", OStr "To execute this query, set confirm_write=True. Example: run_query(query, confirm_write=True)");
    ("query_preview", OStr (query_preview query)) ].

Definition cached_result (cached : list row) : dict :=
  [ ("data", ORows cached);
    ("cached", OBool true);
    ("query_type", OStr "READ");
    ("message", OStr "Data retrieved from cache") ].

Definition write_result (affected_rows : Z) : dict :=
  [ ("success", OBool true);
    ("query_type", OStr "WRITE");
    ("affected_rows", OInt affected_rows);
    ("message", OStr ("Write operation completed successfully. "
                      ++ Text.str_of_int affected_rows ++ " row(s) affected.")) ].

Definition read_result (rows : list row) : dict :=
  [ ("data", ORows rows);
    ("cached", OBool false);
    ("query_type", OStr "READ");
    ("count", OInt (len_rows rows));
    ("message", OStr ("Query executed successfully. "
                      ++ Text.str_of_int (len_rows rows) ++ " row(s) returned.")) ].

Definition error_result (msg : string) : dict :=
  [ ("error", OStr ("Database error: " ++ msg)) ].

(** [run_query] from [# Execute query] to the end of the [try] block. *)
Definition execute_query (query : string) (use_cache is_write : bool) : M E dict :=
  get_db ;;;
  call Cursor (db_cursor drv) ;;;
  call (Execute query) (cursor_execute drv query) ;;;
  if is_write then
    affected_rows <- (fun w => (Return (cursor_rowcount drv (env w)), w)) ;;
    call Commit (db_commit drv) ;;;
    call CursorClose (cursor_close drv) ;;;
    call Close (db_close drv) ;;;
    cache_clear ;;;
    ret (write_result affected_rows)
  else
    results <- call Fetchall (cursor_fetchall drv) ;;
    call CursorClose (cursor_close drv) ;;;
    call Close (db_close drv) ;;;
    let rows := clean_rows results in
    (if use_cache then set_cached_query query rows else ret tt) ;;;
    ret (read_result rows).

(** The [try] block of [run_query].  [if cached:] holds for a list with
    at least one row; [None] and the empty list are false. *)
Definition run_query_body (query : string) (use_cache force_refresh confirm_write : bool)
  : M E dict :=
  let is_write := is_write_query query in
  if is_write && negb confirm_write then ret (withheld_result query)
  else
    let use_cache := if is_write then false else use_cache in
    if use_cache && negb force_refresh && negb is_write then
      cached <- get_cached_query query ;;
      match cached with
      | Some (r :: rows) => ret (cached_result (r :: rows))
      | _ => execute_query query use_cache is_write
      end
    else execute_query query use_cache is_write.

(** [run_query(query, use_cache, force_refresh, confirm_write)] *)
Definition run_query (query : string) (use_cache force_refresh confirm_write : bool)
  : M E dict :=
  try_except_Error
    (run_query_body query use_cache force_refresh confirm_write)
    (fun msg => ret (error_result msg)).

(** [clear_cache()] *)
Definition clear_cache : M E dict :=
  cache_clear ;;;
  ret [ ("message", OStr "Cache cleared successfully") ].

(** The loop of [get_cache_info] over [_cache.items()]; on whole
    time-units [round(age, 2)] is [age]. *)
Fixpoint cache_entries (items : list (string * cache_entry)) : M E (list entry_info) :=
  match items with
  | [] => ret []
  | (k, entry) :: items' =>
      t <- now ;;
      let age := (t - timestamp entry)%Z in
      valid <- is_cache_valid (Some entry) CACHE_TTL ;;
      rest <- cache_entries items' ;;
      ret (EntryInfo (Text.slice_to 16 k ++ "...") age valid
                     (match data entry with [] => 0 | rows => len_rows rows end)
           :: rest)
  end.

(** [get_cache_info()] *)
Definition get_cache_info : M E dict :=
  fun w =>
    let total := Z.of_nat (size (_cache w)) in
    (entries <- cache_entries (map_to_list (_cache w)) ;;
     ret [ ("total_cached_queries", OInt total); ("cache_entries", OEntries entries) ]) w.

End Gateway.

Arguments call {E A} c op.

(** ** Successful round trips *)

(** The driver calls of a write all return: connect, cursor, execute,
    then [rowcount] is read, commit, and both [close] calls. *)
Definition write_trip {E} (drv : driver E) (query : string)
    (e : E) (affected_rows : Z) (e' : E) : Prop :=
  exists e1 e2 e3 e4 e5,
    connect drv e = (Return tt, e1) /\
    db_cursor drv e1 = (Return tt, e2) /\
    cursor_execute drv query e2 = (Return tt, e3) /\
    affected_rows = cursor_rowcount drv e3 /\
    db_commit drv e3 = (Return tt, e4) /\
    cursor_close drv e4 = (Return tt, e5) /\
    db_close drv e5 = (Return tt, e').

(** The driver calls of a read all return: connect, cursor, execute,
    [fetchall] with [results], and both [close] calls. *)
Definition read_trip {E} (drv : driver E) (query : string)
    (e : E) (results : list row) (e' : E) : Prop :=
  exists e1 e2 e3 e4 e5,
    connect drv e = (Return tt, e1) /\
    db_cursor drv e1 = (Return tt, e2) /\
    cursor_execute drv query e2 = (Return tt, e3) /\
    cursor_fetchall drv e3 = (Return results, e4) /\
    cursor_close drv e4 = (Return tt, e5) /\
    db_close drv e5 = (Return tt, e').

(** The result says that a write was withheld: it has an ["error"] and
    its ["query_type"] is ["WRITE"]. *)
Definition confirmation_required (d : dict) : bool :=
  match dict_get "error" d, dict_get "query_type" d with
  | Some _, Some (OStr t) => String.eqb t "WRITE"
  | _, _ => false
  end.

(** Every value of a row is [None] or a [str]. *)
Definition str_or_none (v : pyval) : bool :=
  match v with
  | PNone | PStr _ => true
  | _ => false
  end.

Definition clean_payload (rows : list row) : Prop :=
  forall r, In r rows -> forall col v, r !! col = Some v -> str_or_none v = true.

(** Every payload the cache holds is made of such rows. *)
Definition cache_clean {E} (w : world E) : Prop :=
  forall k entry, _cache w !! k = Some entry -> clean_payload (data entry).

(** ** The classifier in the words of the specification *)

(** The first token of the trimmed text, compared without regard to case
    with each keyword. *)
Definition classify_first_token (query : string) : bool :=
  let token := Text.upper (Text.first_token (Text.strip query)) in
  existsb (fun keyword => String.eqb token keyword) write_keywords.

(** ** A simulated driver *)

(** The world is the clock reading.  [fetchall] returns [rows],
    [rowcount] is [affected], and [fault] names the calls that raise. *)
Definition sim_reply {A} (fault : db_call -> option exn) (c : db_call) (a : A)
  : Z -> outcome A * Z :=
  fun t => (match fault c with Some e => Raise e | None => Return a end, t).

Definition sim_driver (rows : list row) (affected : Z)
    (fault : db_call -> option exn) : driver Z :=
  {| time_time := fun t => (t, t);
     connect := sim_reply fault Connect tt;
     db_cursor := sim_reply fault Cursor tt;
     cursor_execute := fun q => sim_reply fault (Execute q) tt;
     cursor_rowcount := fun _ => affected;
     db_commit := sim_reply fault Commit tt;
     cursor_fetchall := sim_reply fault Fetchall rows;
     cursor_close := sim_reply fault CursorClose tt;
     db_close := sim_reply fault Close tt |}.

Definition no_fault : db_call -> option exn := fun _ => None.

Definition fault_on_execute (msg : string) : db_call -> option exn :=
  fun c => match c with Execute _ => Some (Error msg) | _ => None end.

Definition fault_on_close (msg : string) : db_call -> option exn :=
  fun c => match c with Close => Some (Error msg) | _ => None end.

Definition three_users : list row :=
  [ {[ "ID" := PInt 1; "user_login" := PStr "admin"; "user_url" := PNone ]};
    {[ "ID" := PInt 2; "user_login" := PStr "editor"; "user_url" := PStr "http://e.example" ]};
    {[ "ID" := PInt 3; "user_login" := PStr "author"; "user_registered" := POther "2024-01-05 10:00:00" ]} ].

(** A fresh process at clock reading [t]: nothing cached, no call made. *)
Definition start (t : Z) : world Z := World ∅ t [].

(** A process that cached the three users at clock reading 1000; the
    clock now reads 1200. *)
Definition users_cached : world Z :=
  World {[ get_cache_key "SELECT * FROM wp_users" := CacheEntry (clean_rows three_users) 1000 ]}
        1200%Z [].

(** A process that cached the empty answer of a query at clock reading
    1000; the clock now reads 1100. *)
Definition nothing_cached_for (query : string) : world Z :=
  World {[ get_cache_key query := CacheEntry [] 1000 ]} 1100%Z [].

(** Two texts with one MD5 digest. *)
Definition collision_a : string :=
  "TEXTCOLLBYfGiJUETHQ4hAcKSMd5zYpgqf1YRDhkmxHkhPWptrkoyz28wnI9V0aHeAuaKnak".
Definition collision_b : string :=
  "TEXTCOLLBYfGiJUETHQ4hEcKSMd5zYpgqf1YRDhkmxHkhPWptrkoyz28wnI9V0aHeAuaKnak".

(** The driver calls of a read and of a write that run to the end. *)
Definition read_calls (query : string) : list db_call :=
  [Connect; Cursor; Execute query; Fetchall; CursorClose; Close].

Definition write_calls (query : string) : list db_call :=
  [Connect; Cursor; Execute query; Commit; CursorClose; Close].

(** ** [search_sql] *)

(** More of Python's text built-ins, on ASCII text. *)
Module Str.

Definition lower_char (c : ascii) : ascii :=
  let n := nat_of_ascii c in
  if (65 <=? n)%nat && (n <=? 90)%nat then ascii_of_nat (n + 32) else c.

(** [s.lower()] *)
Fixpoint lower (s : string) : string :=
  match s with
  | EmptyString => EmptyString
  | String c s' => String (lower_char c) (lower s')
  end.

(** [needle in hay] *)
Fixpoint contains (needle hay : string) : bool :=
  Text.startswith hay needle
  || match hay with
     | EmptyString => false
     | String _ hay' => contains needle hay'
     end.

(** [s.split(sep)] for a separator of one character. *)
Fixpoint split (sep : ascii) (s : string) : list string :=
  match s with
  | EmptyString => [EmptyString]
  | String c s' =>
      if Ascii.eqb c sep then EmptyString :: split sep s'
      else match split sep s' with
           | [] => [String c EmptyString]
           | piece :: pieces => String c piece :: pieces
           end
  end.

(** [sep.join(pieces)] *)
Fixpoint join (sep : string) (pieces : list string) : string :=
  match pieces with
  | [] => EmptyString
  | [piece] => piece
  | piece :: pieces' => piece ++ sep ++ join sep pieces'
  end.

End Str.

(** The values found in the dictionaries [search_sql] returns. *)
Inductive sobj : Type :=
  | SNone
  | SBool (b : bool)
  | SInt (n : Z)
  | SStr (s : string)
  | SStrs (items : list string)
  | SRows (rows : list row).

Abbreviation sdict := (list (string * sobj)).

(** [d.get(key)] *)
Fixpoint sdict_get (key : string) (d : sdict) : option sobj :=
  match d with
  | [] => None
  | (k, v) :: d' => if String.eqb k key then Some v else sdict_get key d'
  end.

(** [not s] for an optional string: [None] and the empty string are false. *)
Definition not_str (s : option string) : bool :=
  match s with
  | None | Some EmptyString => true
  | Some _ => false
  end.

(** The columns [search_sql] infers from the table name. *)
Definition default_columns (table : string) : option string :=
  if Str.contains "user" (Str.lower table) then
    Some "user_login,user_email,display_name,user_nicename"
  else if Str.contains "post" (Str.lower table) then
    Some "post_title,post_content,post_name"
  else if Str.contains "comment" (Str.lower table) then
    Some "comment_content,comment_author,comment_author_email"
  else if Str.contains "option" (Str.lower table) then
    Some "option_name,option_value"
  else None.

(** The loop that fills [where_conditions] and [params]. *)
Definition like_conditions (like_operator search_pattern : string)
    (column_list : list string) : list string * list pyval :=
  fold_left
    (fun '(where_conditions, params) col =>
       let condition := col ++ " " ++ like_operator ++ " %s" in
       (app where_conditions [condition], app params [PStr search_pattern]))
    column_list ([], []).

Definition empty_term_result : sdict :=
  [ ("error", SStr "Search term cannot be empty.");
    ("needs_clarification", SBool true);
    ("message", SStr "Please provide a search term to look for.") ].

Definition single_character_result : sdict :=
  [ ("warning", SStr "Single character search with wildcard may return many results.");
    ("needs_clarification", SBool true);
    ("message", SStr "Would you like to refine your search term? Single character searches can be very broad.") ].

Definition no_table_result : sdict :=
  [ ("needs_clarification", SBool true);
    ("message", SStr "No table specified. Which table would you like to search? Common options: wp_users, wp_posts, wp_comments, wp_options, etc.");
    ("suggested_tables", SStrs ["wp_users"; "wp_posts"; "wp_comments"; "wp_options"; "wp_usermeta"]) ].

Definition no_columns_result (table : string) : sdict :=
  [ ("needs_clarification", SBool true);
    ("message", SStr ("Table '" ++ table ++ "' specified but no columns. Which columns would you like to search in this table?"));
    ("suggestion", SStr "You can specify columns as a comma-separated list, e.g., 'column1,column2,column3'") ].

Definition no_valid_columns_result : sdict :=
  [ ("error", SStr "No valid columns specified.");
    ("needs_clarification", SBool true);
    ("message", SStr "Please specify which columns to search.") ].

Definition search_result (data : list row) (table : string) (column_list : list string)
    (search_pattern search_term : string) (limit : Z) : sdict :=
  let result_count := Z.of_nat (length data) in
  let warning :=
    if (limit <=? result_count)%Z then
      SStr ("Results limited to " ++ Text.str_of_int limit
            ++ " rows. Consider refining your search for more specific results.")
    else SNone in
  [ ("data", SRows data);
    ("count", SInt result_count);
    ("table", SStr table);
    ("columns_searched", SStrs column_list);
    ("search_pattern", SStr search_pattern);
    ("warning", warning);
    ("message", SStr ("Found " ++ Text.str_of_int result_count ++ " result(s) in " ++ table
                      ++ " matching '" ++ search_term ++ "'")) ].

(** The [except Error as e] clause of [search_sql]. *)
Definition search_error_result (table error_msg : string) : sdict :=
  if Str.contains "Table" error_msg && Str.contains "doesn't exist" error_msg then
    [ ("error", SStr error_msg);
      ("needs_clarification", SBool true);
      ("message", SStr ("Table '" ++ table ++ "' not found. Please verify the table name or ask which table to search.")) ]
  else if Str.contains "Unknown column" error_msg then
    [ ("error", SStr error_msg);
      ("needs_clarification", SBool true);
      ("message", SStr "One or more columns don't exist in this table. Please verify column names or ask which columns are available.") ]
  else [ ("error", SStr ("Database error: " ++ error_msg)) ].

(** [f"SELECT * FROM {table} WHERE {where_clause} LIMIT %s"] *)
Definition search_query (table : string) (where_conditions : list string) : string :=
  "SELECT * FROM " ++ table ++ " WHERE " ++ Str.join " OR " where_conditions ++ " LIMIT %s".

Section Search.

(** [cursor.execute(query, params)]: the driver call with bound
    parameters, which [run_query] does not use. *)
Context {E : Type} (drv : driver E)
        (cursor_execute_params : string -> list pyval -> E -> outcome unit * E).

(** The [try] block of [search_sql]. *)
Definition search_sql_body (search_term : string) (table columns : option string)
    (use_wildcard : bool) (limit : Z) (case_sensitive : bool) : M E sdict :=
  if String.eqb search_term "" || (String.length (Text.strip search_term) =? 0)%nat then
    ret empty_term_result
  else if (String.length (Text.strip search_term) =? 1)%nat && use_wildcard then
    ret single_character_result
  else
    let search_pattern := Text.strip search_term in
    let search_pattern :=
      if use_wildcard then "%" ++ search_pattern ++ "%" else search_pattern in
    match table with
    | None | Some EmptyString => ret no_table_result
    | Some table =>
      match (if not_str columns then default_columns table else columns) with
      | None => ret (no_columns_result table)
      | Some columns =>
          let column_list := map Text.strip (Str.split "," columns) in
          match column_list with
          | [] => ret no_valid_columns_result
          | _ =>
              let like_operator := if case_sensitive then "LIKE BINARY" else "LIKE" in
              let '(where_conditions, params) :=
                like_conditions like_operator search_pattern column_list in
              let query := search_query table where_conditions in
              let params := (params ++ [PInt limit])%list in
              get_db drv ;;;
              call Cursor (db_cursor drv) ;;;
              call (Execute query) (cursor_execute_params query params) ;;;
              results <- call Fetchall (cursor_fetchall drv) ;;
              call CursorClose (cursor_close drv) ;;;
              call Close (db_close drv) ;;;
              ret (search_result (clean_rows results) table column_list
                     search_pattern search_term limit)
          end
      end
    end.

(** [search_sql(search_term, table, columns, use_wildcard, limit, case_sensitive)] *)
Definition search_sql (search_term : string) (table columns : option string)
    (use_wildcard : bool) (limit : Z) (case_sensitive : bool) : M E sdict :=
  try_except_Error
    (search_sql_body search_term table columns use_wildcard limit case_sensitive)
    (fun error_msg => ret (search_error_result (default "None" table) error_msg)).

End Search.

(** The simulated driver's [cursor.execute(query, params)]. *)
Definition sim_execute_params (fault : db_call -> option exn)
    (query : string) (params : list pyval) : Z -> outcome unit * Z :=
  sim_reply fault (Execute query) tt.

(** * Properties *)

(** ** Text *)

Module TextFacts.
Import Text.

#[local] Arguments String.append !_ _ / : simpl nomatch.

Lemma isspace_upper_char c : isspace (upper_char c) = isspace c.
Proof. destruct c as [[] [] [] [] [] [] [] []]; reflexivity. Qed.

Lemma upper_char_idem c : upper_char (upper_char c) = upper_char c.
Proof. destruct c as [[] [] [] [] [] [] [] []]; reflexivity. Qed.

Lemma upper_idem s : upper (upper s) = upper s.
Proof. induction s as [|c s IH]; simpl; [|rewrite upper_char_idem, IH]; reflexivity. Qed.

Lemma upper_app s t : upper (s ++ t) = upper s ++ upper t.
Proof. induction s as [|c s IH]; simpl; [|rewrite IH]; reflexivity. Qed.

Lemma lstrip_upper s : lstrip (upper s) = upper (lstrip s).
Proof.
  induction s as [|c s IH]; simpl; [reflexivity|].
  rewrite isspace_upper_char. destruct (isspace c); [exact IH | reflexivity].
Qed.

Lemma rstrip_upper s : rstrip (upper s) = upper (rstrip s).
Proof.
  induction s as [|c s IH]; simpl; [reflexivity|].
  rewrite IH, isspace_upper_char.
  destruct (rstrip s); simpl; [destruct (isspace c)|]; reflexivity.
Qed.

Lemma strip_upper s : strip (upper s) = upper (strip s).
Proof. unfold strip. rewrite lstrip_upper. apply rstrip_upper. Qed.

Lemma lstrip_all_space l : all_space l = true -> lstrip l = "".
Proof.
  induction l as [|c l IH]; simpl; [reflexivity|].
  destruct (isspace c); simpl; [exact IH | discriminate].
Qed.

Lemma rstrip_all_space r : all_space r = true -> rstrip r = "".
Proof.
  induction r as [|c r IH]; simpl; [reflexivity|].
  destruct (isspace c); simpl; [|discriminate].
  intros H. rewrite (IH H). reflexivity.
Qed.

Lemma lstrip_app_space l s : all_space l = true -> lstrip (l ++ s) = lstrip s.
Proof.
  induction l as [|c l IH]; simpl; [reflexivity|].
  destruct (isspace c); simpl; [exact IH | discriminate].
Qed.

Lemma rstrip_app_space s r : all_space r = true -> rstrip (s ++ r) = rstrip s.
Proof.
  intros Hr. induction s as [|c s IH]; simpl.
  - apply rstrip_all_space, Hr.
  - rewrite IH. reflexivity.
Qed.

Lemma strip_app_space_r s r : all_space r = true -> strip (s ++ r) = strip s.
Proof.
  intros Hr. unfold strip. induction s as [|c s IH]; simpl.
  - rewrite (lstrip_all_space r Hr). reflexivity.
  - destruct (isspace c); [exact IH|].
    apply (rstrip_app_space (String c s) r Hr).
Qed.

(** Leading and trailing white space does not change the trimmed text. *)
Lemma strip_surrounded l s r :
  all_space l = true -> all_space r = true -> strip (l ++ s ++ r) = strip s.
Proof.
  intros Hl Hr. unfold strip at 1. rewrite (lstrip_app_space l _ Hl).
  apply (strip_app_space_r s r Hr).
Qed.

Lemma lstrip_split s : exists l, all_space l = true /\ s = l ++ lstrip s.
Proof.
  induction s as [|c s [l [Hl Hs]]]; simpl.
  - exists "". split; reflexivity.
  - destruct (isspace c) eqn:Hc.
    + exists (String c l). simpl. rewrite Hc, Hl. split; [reflexivity|].
      f_equal. exact Hs.
    + exists "". split; reflexivity.
Qed.

Lemma rstrip_split s : exists r, all_space r = true /\ s = rstrip s ++ r.
Proof.
  induction s as [|c s [r [Hr Hs]]]; simpl.
  - exists "". split; reflexivity.
  - destruct (rstrip s) eqn:Hrs.
    + destruct (isspace c) eqn:Hc.
      * exists (String c r). simpl. rewrite Hc, Hr. split; [reflexivity|].
        simpl in Hs. rewrite <- Hs. reflexivity.
      * exists r. split; [exact Hr|]. simpl in *. rewrite <- Hs. reflexivity.
    + exists r. split; [exact Hr|]. simpl in *. rewrite <- Hs. reflexivity.
Qed.

(** The trimmed text is the input without a run of white space at each end. *)
Lemma strip_split s :
  exists l r, all_space l = true /\ all_space r = true /\ s = l ++ strip s ++ r.
Proof.
  destruct (lstrip_split s) as [l [Hl Hs]].
  destruct (rstrip_split (lstrip s)) as [r [Hr Hs']].
  exists l, r. repeat split; [exact Hl | exact Hr |].
  unfold strip. rewrite <- Hs'. exact Hs.
Qed.

(** The trimmed text does not begin with white space. *)
Lemma strip_head c t s : strip s = String c t -> isspace c = false.
Proof.
  unfold strip. intros H.
  assert (Hl : forall u, lstrip s = String c u -> isspace c = false).
  { clear H. induction s as [|a s IH]; simpl; [discriminate|].
    destruct (isspace a) eqn:Ha; [exact IH|].
    intros u Hu. injection Hu as -> _. exact Ha. }
  destruct (lstrip s) as [|a u] eqn:Hls; simpl in H; [discriminate|].
  assert (a = c) as ->.
  { destruct (rstrip u); [destruct (isspace a); [discriminate|]|]; congruence. }
  apply (Hl u). reflexivity.
Qed.

Lemma startswith_iff s p : startswith s p = true <-> exists rest, s = p ++ rest.
Proof.
  unfold startswith. revert s. induction p as [|a p IH]; intros s.
  - split; [intros _; exists s; reflexivity | intros _; destruct s; reflexivity].
  - destruct s as [|b s]; simpl.
    + split; [discriminate | intros [rest H]; discriminate].
    + destruct (ascii_dec a b) as [->|Hne].
      * split.
        -- intros H. apply IH in H as [rest H]. exists rest. congruence.
        -- intros [rest H]. apply IH. exists rest. congruence.
      * split; [discriminate | intros [rest H]; congruence].
Qed.

Lemma first_token_split s : exists rest, s = first_token s ++ rest.
Proof.
  induction s as [|c s [rest H]]; simpl.
  - exists "". reflexivity.
  - destruct (isspace c).
    + exists (String c s). reflexivity.
    + exists rest. simpl. f_equal. exact H.
Qed.

End TextFacts.

(** ** The classifier *)

Lemma is_write_query_iff (q : string) :
  is_write_query q = true <->
  exists keyword rest,
    In keyword write_keywords /\ Text.upper (Text.strip q) = keyword ++ rest.
Proof.
  unfold is_write_query. rewrite existsb_exists. split.
  - intros [kw [Hin Hp]]. apply TextFacts.startswith_iff in Hp as [rest Hrest].
    exists kw, rest. split; assumption.
  - intros [kw [rest [Hin Heq]]]. exists kw. split; [exact Hin|].
    apply TextFacts.startswith_iff. exists rest. exact Heq.
Qed.

(** C4, as the code has it.  [is_write_query] is a total function of the
    text alone.  It answers WRITE exactly when the text, trimmed of white
    space at both ends and put in upper case, begins with one of the eight
    keywords: a prefix test, so a first token that is a keyword in any
    letter case gives WRITE, and so does a longer first token that only
    begins with one.  The answer does not change with the letter case of
    the text nor with white space put around it, and every other text, the
    empty one included, is READ. *)
Theorem is_write_query_prefix_test :
  (forall q, is_write_query q = true <->
     exists keyword rest,
       In keyword write_keywords /\ Text.upper (Text.strip q) = keyword ++ rest)
  /\ (forall q, classify_first_token q = true -> is_write_query q = true)
  /\ (forall q, is_write_query (Text.upper q) = is_write_query q)
  /\ (forall l q r, Text.all_space l = true -> Text.all_space r = true ->
        is_write_query (l ++ q ++ r) = is_write_query q)
  /\ is_write_query "" = false
  /\ write_keywords =
       ["INSERT"; "UPDATE"; "DELETE"; "ALTER"; "DROP"; "CREATE"; "TRUNCATE"; "REPLACE"].
Proof.
  split; [exact is_write_query_iff|].
  split.
  { intros q. unfold classify_first_token. rewrite existsb_exists.
    intros [kw [Hin Heq]]. apply String.eqb_eq in Heq.
    apply is_write_query_iff.
    destruct (TextFacts.first_token_split (Text.strip q)) as [rest Hrest].
    exists kw, (Text.upper rest). split; [exact Hin|].
    rewrite <- Heq, <- TextFacts.upper_app, <- Hrest. reflexivity. }
  split.
  { intros q. unfold is_write_query.
    rewrite TextFacts.strip_upper, TextFacts.upper_idem. reflexivity. }
  split.
  { intros l q r Hl Hr. unfold is_write_query.
    rewrite (TextFacts.strip_surrounded l q r Hl Hr). reflexivity. }
  split; reflexivity.
Qed.

(** C4 as worded fails: the first token of this text is [UPDATES], which
    is none of the keywords, and [is_write_query] answers WRITE. *)
Lemma first_token_mismatch :
  classify_first_token "UPDATES pending" = false
  /\ is_write_query "UPDATES pending" = true.
Proof. split; reflexivity. Qed.

(** ** The cache key *)

Lemma encode_inj (q1 q2 : string) : Text.encode q1 = Text.encode q2 -> q1 = q2.
Proof.
  revert q2. induction q1 as [|c q1 IH]; intros [|c' q2]; simpl; try discriminate.
  - reflexivity.
  - intros H. injection H as Hc Hq. f_equal; [|apply IH, Hq].
    apply N2Z.inj in Hc. rewrite <- (ascii_N_embedding c), <- (ascii_N_embedding c').
    f_equal. exact Hc.
Qed.

Lemma length_hex (bs : list Z) : String.length (Md5.hex bs) = (2 * length bs)%nat.
Proof. induction bs as [|b bs IH]; simpl; [reflexivity|]. rewrite IH. lia. Qed.

Lemma length_digest (msg : list Z) : length (Md5.digest msg) = 16%nat.
Proof.
  unfold Md5.digest.
  destruct (fold_left Md5.block _ Md5.init) as [[[a b] c] d]. reflexivity.
Qed.

(** C7, as the code has it.  The key is a function of the query text
    alone: equal texts give equal keys.  It is the MD5 digest of the exact
    text, with nothing normalised before hashing (the hashed bytes
    determine the text), written as 32 hexadecimal digits whatever the
    text; texts that differ in letter case or in a leading space get
    different keys here.  Different texts are not promised different
    keys. *)
Theorem get_cache_key_digest_of_exact_text :
  (forall q1 q2 : string, q1 = q2 -> get_cache_key q1 = get_cache_key q2)
  /\ (forall q : string, String.length (get_cache_key q) = 32%nat)
  /\ (forall q : string, get_cache_key q = Md5.hexdigest (Text.encode q))
  /\ (forall q1 q2 : string, Text.encode q1 = Text.encode q2 -> q1 = q2)
  /\ get_cache_key "SELECT 1" <> get_cache_key "select 1"
  /\ get_cache_key "SELECT 1" <> get_cache_key " SELECT 1".
Proof.
  split; [intros q1 q2 ->; reflexivity|].
  split.
  { intros q. unfold get_cache_key, Md5.hexdigest.
    rewrite length_hex, length_digest. reflexivity. }
  split; [reflexivity|].
  split; [exact encode_inj|].
  split; intros H; vm_compute in H; discriminate.
Qed.

(** C7 as worded fails: these two texts differ and have the same key, so
    they share one cache entry. *)
Lemma different_texts_same_key :
  collision_a <> collision_b
  /\ get_cache_key collision_a = get_cache_key collision_b.
Proof. split; [discriminate | vm_compute; reflexivity]. Qed.

(** ** The gateway *)

Section GatewayFacts.

Context {E : Type} (drv : driver E).

Implicit Types (w : world E) (q : string) (d : dict).

Ltac run :=
  unfold run_query, try_except_Error, run_query_body, execute_query,
    get_cached_query, set_cached_query, is_cache_valid, get_db, call, now,
    cache_get, cache_set, cache_clear, bind, ret in *;
  simpl in *.

Ltac cases := repeat (case_match; simplify_eq; simpl in *; try done).

(** *** The cache lookup *)

Lemma is_cache_valid_some (entry : cache_entry) (ttl : Z) w :
  is_cache_valid drv (Some entry) ttl w =
  (Return (fst (time_time drv (env w)) - timestamp entry <? ttl)%Z,
   World (_cache w) (snd (time_time drv (env w))) (calls w)).
Proof. run. destruct (time_time drv (env w)). reflexivity. Qed.

Lemma get_cached_query_miss q w :
  _cache w !! get_cache_key q = None ->
  get_cached_query drv q w = (Return None, w).
Proof. intros H. run. rewrite H. reflexivity. Qed.

Lemma get_cached_query_entry q w entry :
  _cache w !! get_cache_key q = Some entry ->
  get_cached_query drv q w =
  (Return (if (fst (time_time drv (env w)) - timestamp entry <? CACHE_TTL)%Z
           then Some (data entry) else None),
   World (_cache w) (snd (time_time drv (env w))) (calls w)).
Proof.
  intros H. run. rewrite H. destruct (time_time drv (env w)) as [t e']. simpl.
  destruct (t - timestamp entry <? CACHE_TTL)%Z; reflexivity.
Qed.

(** The lookup never raises, never calls the driver and leaves the cache alone. *)
Lemma get_cached_query_quiet q w :
  exists cached w',
    get_cached_query drv q w = (Return cached, w')
    /\ _cache w' = _cache w /\ calls w' = calls w.
Proof.
  destruct (_cache w !! get_cache_key q) as [entry|] eqn:H.
  - rewrite (get_cached_query_entry q w entry H). eauto.
  - rewrite (get_cached_query_miss q w H). eauto.
Qed.

(** *** The round trip *)

(** Whatever it returns, [execute_query] begins by connecting. *)
Lemma execute_query_connects q uc iw w r w' :
  execute_query drv q uc iw w = (r, w') ->
  exists rest, calls w' = (calls w ++ Connect :: rest)%list.
Proof.
  intros H. run. cases;
    repeat rewrite <- app_assoc; simpl; eexists; reflexivity.
Qed.

(** When [execute_query] raises, the cache is as it was. *)
Lemma execute_query_raise_keeps_cache q uc iw w x w' :
  execute_query drv q uc iw w = (Raise x, w') -> _cache w' = _cache w.
Proof. intros H. run. cases. Qed.

Lemma execute_query_write q uc w n e' :
  write_trip drv q (env w) n e' ->
  execute_query drv q uc true w =
  (Return (write_result n),
   World ∅ e' (calls w ++ [Connect; Cursor; Execute q; Commit; CursorClose; Close])).
Proof.
  intros (e1 & e2 & e3 & e4 & e5 & H1 & H2 & H3 & -> & H4 & H5 & H6).
  run. rewrite H1. simpl. rewrite H2. simpl. rewrite H3. simpl.
  rewrite H4. simpl. rewrite H5. simpl. rewrite H6. simpl.
  repeat rewrite <- app_assoc. reflexivity.
Qed.

Lemma execute_query_read q uc w results e' :
  read_trip drv q (env w) results e' ->
  execute_query drv q uc false w =
  (Return (read_result (clean_rows results)),
   World (if uc
          then <[get_cache_key q :=
                   CacheEntry (clean_rows results) (fst (time_time drv e'))]> (_cache w)
          else _cache w)
         (if uc then snd (time_time drv e') else e')
         (calls w ++ [Connect; Cursor; Execute q; Fetchall; CursorClose; Close])).
Proof.
  intros (e1 & e2 & e3 & e4 & e5 & H1 & H2 & H3 & H4 & H5 & H6).
  run. rewrite H1. simpl. rewrite H2. simpl. rewrite H3. simpl.
  rewrite H4. simpl. rewrite H5. simpl. rewrite H6. simpl.
  repeat rewrite <- app_assoc. simpl.
  destruct uc; simpl; [destruct (time_time drv e')|]; reflexivity.
Qed.

(** Only a driver call makes the [try] block raise. *)
Lemma run_query_body_raise_origin q uc fr cw w x w' :
  run_query_body drv q uc fr cw w = (Raise x, w') ->
  exists e e',
    connect drv e = (Raise x, e') \/ db_cursor drv e = (Raise x, e')
    \/ cursor_execute drv q e = (Raise x, e') \/ db_commit drv e = (Raise x, e')
    \/ cursor_fetchall drv e = (Raise x, e')
    \/ cursor_close drv e = (Raise x, e') \/ db_close drv e = (Raise x, e').
Proof.
  intros H. run. cases; eauto 12.
Qed.

Lemma run_query_body_raise_keeps_cache q uc fr cw w x w' :
  run_query_body drv q uc fr cw w = (Raise x, w') -> _cache w' = _cache w.
Proof.
  intros H. unfold run_query_body in H.
  destruct (is_write_query q && negb cw); [discriminate|].
  destruct ((if is_write_query q then false else uc) && negb fr && negb (is_write_query q)).
  - unfold bind in H.
    destruct (get_cached_query_quiet q w) as (cached & w1 & Hq & Hc & _).
    rewrite Hq in H. rewrite <- Hc.
    destruct cached as [[|r rows]|]; try discriminate;
      apply (execute_query_raise_keeps_cache _ _ _ _ _ _ H).
  - apply (execute_query_raise_keeps_cache _ _ _ _ _ _ H).
Qed.

(** *** The claims about [run_query] *)

(** C1.  A query classified WRITE, run with [confirm_write=False], returns
    at once, whatever [use_cache] and [force_refresh] are.  The result has
    [query_type = "WRITE"] and carries the signal that execution was
    withheld (an ["error"] together with that query type, and no
    ["success"]); the world after the call is the world before it, so no
    driver call was made and the cache is unchanged.  No other result of
    [run_query] carries that signal. *)
Theorem unconfirmed_write_is_withheld q uc fr w :
  is_write_query q = true ->
  run_query drv q uc fr false w = (Return (withheld_result q), w)
  /\ dict_get "query_type" (withheld_result q) = Some (OStr "WRITE")
  /\ confirmation_required (withheld_result q) = true
  /\ dict_get "success" (withheld_result q) = None
  /\ (forall q0 uc0 fr0 cw0 w0 d0 w0',
        run_query drv q0 uc0 fr0 cw0 w0 = (Return d0, w0') ->
        confirmation_required d0 = true ->
        is_write_query q0 = true /\ cw0 = false /\ w0' = w0).
Proof.
  intros Hw. split; [|split; [|split; [|split]]]; try reflexivity.
  - run. rewrite Hw. reflexivity.
  - clear. intros q0 uc0 fr0 cw0 w0 d0 w0' H Hsig.
    unfold run_query, try_except_Error, run_query_body in H.
    destruct (is_write_query q0) eqn:Hq0; destruct cw0; simpl in H;
      try (injection H as <- <-; auto; fail);
      run; cases.
Qed.

(** C2.  A query classified WRITE, run with [confirm_write=True], whose
    driver calls all return (connect, cursor, execute, commit and the two
    [close] calls) leaves the cache empty, whatever it held before, and
    returns [success = True], [query_type = "WRITE"] and the row count
    the cursor reported. *)
Theorem confirmed_write_clears_cache q uc fr w affected_rows e' :
  is_write_query q = true ->
  write_trip drv q (env w) affected_rows e' ->
  exists d w',
    run_query drv q uc fr true w = (Return d, w')
    /\ _cache w' = ∅
    /\ dict_get "success" d = Some (OBool true)
    /\ dict_get "query_type" d = Some (OStr "WRITE")
    /\ dict_get "affected_rows" d = Some (OInt affected_rows)
    /\ calls w' = (calls w ++ [Connect; Cursor; Execute q; Commit; CursorClose; Close])%list.
Proof.
  intros Hw Htrip. eexists _, _. split.
  - unfold run_query, try_except_Error, run_query_body. rewrite Hw. simpl.
    rewrite (execute_query_write q false w affected_rows e' Htrip). reflexivity.
  - repeat split; reflexivity.
Qed.

(** C5.  When a driver call raises [Error] inside the [try] block,
    [run_query] returns the dictionary whose ["error"] is
    ["Database error: "] followed by the driver's message, and the cache
    after the call is the cache before it; no run of [run_query] ends in
    an uncaught [Error]. *)
Theorem database_error_is_reported q uc fr cw w msg w' :
  run_query_body drv q uc fr cw w = (Raise (Error msg), w') ->
  run_query drv q uc fr cw w = (Return (error_result msg), w')
  /\ dict_get "error" (error_result msg) = Some (OStr ("Database error: " ++ msg))
  /\ _cache w' = _cache w
  /\ (forall q0 uc0 fr0 cw0 w0 msg0,
        fst (run_query drv q0 uc0 fr0 cw0 w0) <> Raise (Error msg0)).
Proof.
  intros H. split; [|split; [|split]].
  - unfold run_query, try_except_Error. rewrite H. reflexivity.
  - reflexivity.
  - apply (run_query_body_raise_keeps_cache _ _ _ _ _ _ _ H).
  - clear. intros q0 uc0 fr0 cw0 w0 msg0.
    unfold run_query, try_except_Error.
    destruct (run_query_body drv q0 uc0 fr0 cw0 w0) as [[d|[m|n]] w1];
      simpl; discriminate.
Qed.

(** *** Repeated reads *)

(** A read with [use_cache=True] and no forced refresh finds a valid
    entry that holds at least one row: the rows come back with
    [cached = True]; the driver is not called and the cache is unchanged. *)
Lemma cache_hit_within_ttl q cw w entry :
  is_write_query q = false ->
  _cache w !! get_cache_key q = Some entry ->
  data entry <> [] ->
  (fst (time_time drv (env w)) - timestamp entry < CACHE_TTL)%Z ->
  run_query drv q true false cw w =
  (Return (cached_result (data entry)),
   World (_cache w) (snd (time_time drv (env w))) (calls w)).
Proof.
  intros Hq Hk Hne Hage.
  unfold run_query, try_except_Error, run_query_body, bind. rewrite Hq. simpl.
  rewrite (get_cached_query_entry q w entry Hk).
  apply Z.ltb_lt in Hage. rewrite Hage.
  destruct (data entry) as [|r rows]; [contradiction|]. reflexivity.
Qed.

(** The entry has reached its time to live: the call goes to the database. *)
Lemma expired_entry_is_fetched_again q cw w entry :
  is_write_query q = false ->
  _cache w !! get_cache_key q = Some entry ->
  (CACHE_TTL <= fst (time_time drv (env w)) - timestamp entry)%Z ->
  exists r w' rest,
    run_query drv q true false cw w = (r, w')
    /\ calls w' = (calls w ++ Connect :: rest)%list.
Proof.
  intros Hq Hk Hage.
  unfold run_query, try_except_Error, run_query_body, bind. rewrite Hq. simpl.
  rewrite (get_cached_query_entry q w entry Hk).
  apply Z.ltb_ge in Hage. rewrite Hage.
  destruct (execute_query drv q true false _) as [r w1] eqn:Hx.
  apply execute_query_connects in Hx as [rest Hrest]. simpl in Hrest.
  destruct r as [d|[msg|n]]; eauto.
Qed.

(** A read with [use_cache=True] that returns rows leaves them in the
    cache under the key of the query. *)
Lemma read_leaves_payload_cached q fr cw w d w' rows :
  is_write_query q = false ->
  run_query drv q true fr cw w = (Return d, w') ->
  dict_get "data" d = Some (ORows rows) ->
  exists entry, _cache w' !! get_cache_key q = Some entry /\ data entry = rows.
Proof.
  intros Hq H Hd.
  unfold run_query, try_except_Error, run_query_body in H. rewrite Hq in H.
  simpl in H. run. cases;
    (eexists; split; [solve [eassumption | apply lookup_insert_eq]|]);
    solve [reflexivity | assumption].
Qed.

(** The part of C3 the code keeps: after a read that returned at least
    one row, the same query run while the stored entry is younger than
    [CACHE_TTL] returns the same rows with [cached = True] and makes no
    driver call; once the entry has reached [CACHE_TTL] the call connects
    to the database again. *)
Lemma repeated_read_of_rows q fr cw1 cw2 w d1 w1 rows w2 :
  is_write_query q = false ->
  run_query drv q true fr cw1 w = (Return d1, w1) ->
  dict_get "data" d1 = Some (ORows rows) ->
  rows <> [] ->
  _cache w2 = _cache w1 ->
  exists entry,
    _cache w1 !! get_cache_key q = Some entry /\ data entry = rows
    /\ ((fst (time_time drv (env w2)) - timestamp entry < CACHE_TTL)%Z ->
         run_query drv q true false cw2 w2 =
         (Return (cached_result rows),
          World (_cache w2) (snd (time_time drv (env w2))) (calls w2)))
    /\ ((CACHE_TTL <= fst (time_time drv (env w2)) - timestamp entry)%Z ->
         exists r w' rest,
           run_query drv q true false cw2 w2 = (r, w')
           /\ calls w' = (calls w2 ++ Connect :: rest)%list).
Proof.
  intros Hq H1 Hd Hne Hc.
  destruct (read_leaves_payload_cached q fr cw1 w d1 w1 rows Hq H1 Hd)
    as (entry & Hk & Hdata).
  exists entry. split; [exact Hk|]. split; [exact Hdata|].
  rewrite <- Hc in Hk. split; intros Hage.
  - rewrite <- Hdata. apply (cache_hit_within_ttl q cw2 w2 entry Hq Hk); [|exact Hage].
    rewrite Hdata. exact Hne.
  - apply (expired_entry_is_fetched_again q cw2 w2 entry Hq Hk Hage).
Qed.

(** C10.  The cache holds a valid entry for a READ query and the entry
    has no row.  The query, run with [use_cache=True] and no forced
    refresh, is not answered from the cache: the call connects to the
    database, its result never has [cached = True], and when the driver
    calls of the read all return, the result is the fresh one, with
    [cached = False]. *)
Theorem empty_payload_is_fetched_again q cw w entry :
  is_write_query q = false ->
  _cache w !! get_cache_key q = Some entry ->
  data entry = [] ->
  (fst (time_time drv (env w)) - timestamp entry < CACHE_TTL)%Z ->
  (exists r w' rest,
     run_query drv q true false cw w = (r, w')
     /\ calls w' = (calls w ++ Connect :: rest)%list
     /\ (forall d, r = Return d -> dict_get "cached" d <> Some (OBool true)))
  /\ (forall results e',
        read_trip drv q (snd (time_time drv (env w))) results e' ->
        exists w',
          run_query drv q true false cw w = (Return (read_result (clean_rows results)), w')
          /\ dict_get "cached" (read_result (clean_rows results)) = Some (OBool false)).
Proof.
  intros Hq Hk Hempty Hage.
  assert (Hrun : run_query drv q true false cw w =
                 try_except_Error
                   (execute_query drv q true false)
                   (fun msg => ret (error_result msg))
                   (World (_cache w) (snd (time_time drv (env w))) (calls w))).
  { unfold run_query, try_except_Error, run_query_body, bind. rewrite Hq. simpl.
    rewrite (get_cached_query_entry q w entry Hk).
    apply Z.ltb_lt in Hage. rewrite Hage, Hempty. reflexivity. }
  rewrite Hrun. unfold try_except_Error. split.
  - destruct (execute_query drv q true false _) as [r w1] eqn:Hx.
    pose proof (execute_query_connects _ _ _ _ _ _ Hx) as [rest Hrest].
    simpl in Hrest.
    assert (Hfresh : forall d, r = Return d -> dict_get "cached" d <> Some (OBool true)).
    { intros d ->. clear -Hx. run. cases. }
    destruct r as [d|[msg|n]]; eexists _, _, rest; (split; [reflexivity|]);
      (split; [exact Hrest|]); try exact Hfresh.
    intros d Hd. injection Hd as <-. discriminate.
  - intros results e' Htrip.
    rewrite (execute_query_read q true
               (World (_cache w) (snd (time_time drv (env w))) (calls w))
               results e' Htrip).
    eexists. split; reflexivity.
Qed.

(** *** The payload of a read *)

Lemma clean_row_lookup (r : row) (col : string) :
  clean_row r !! col = clean_value <$> (r !! col).
Proof. unfold clean_row. apply lookup_fmap. Qed.

Lemma clean_value_none (v : pyval) : clean_value v = PNone <-> v = PNone.
Proof. destruct v; simpl; split; congruence. Qed.

Lemma clean_value_str (v : pyval) : v <> PNone -> clean_value v = PStr (py_str v).
Proof. destruct v; simpl; congruence. Qed.

Lemma clean_payload_clean_rows (results : list row) : clean_payload (clean_rows results).
Proof.
  intros r Hin col v Hv. apply in_map_iff in Hin as [r0 [<- _]].
  rewrite clean_row_lookup in Hv.
  destruct (r0 !! col) as [v0|]; simpl in Hv; [|discriminate].
  injection Hv as <-. destruct v0; reflexivity.
Qed.

Lemma execute_query_clean q uc iw w d w' :
  cache_clean w ->
  execute_query drv q uc iw w = (Return d, w') ->
  cache_clean w'
  /\ (forall rows, dict_get "data" d = Some (ORows rows) -> clean_payload rows).
Proof.
  intros Hc H. run. cases; split;
    try (intros rows Hd; simpl in Hd; simplify_eq; apply clean_payload_clean_rows);
    intros k entry Hk; simpl in Hk;
    first
      [ apply (Hc k entry Hk)
      | rewrite lookup_empty in Hk; discriminate
      | apply lookup_insert_Some in Hk as [[_ <-]|[_ Hk]];
        [apply clean_payload_clean_rows | apply (Hc k entry Hk)] ].
Qed.

Lemma run_query_clean q uc fr cw w d w' :
  cache_clean w ->
  run_query drv q uc fr cw w = (Return d, w') ->
  cache_clean w'
  /\ (forall rows, dict_get "data" d = Some (ORows rows) -> clean_payload rows).
Proof.
  intros Hc H. unfold run_query, try_except_Error in H.
  destruct (run_query_body drv q uc fr cw w) as [[d0|[msg|n]] w0] eqn:Hb;
    [injection H as <- <- | |discriminate].
  - unfold run_query_body in Hb.
    destruct (is_write_query q && negb cw).
    { injection Hb as <- <-. split; [exact Hc | discriminate]. }
    destruct ((if is_write_query q then false else uc) && negb fr
              && negb (is_write_query q)).
    + unfold bind in Hb.
      destruct (_cache w !! get_cache_key q) as [entry|] eqn:Hk.
      * rewrite (get_cached_query_entry q w entry Hk) in Hb.
        set (w1 := World (_cache w) (snd (time_time drv (env w))) (calls w)) in *.
        assert (Hc1 : cache_clean w1) by exact Hc.
        destruct (_ <? _)%Z;
          [destruct (data entry) as [|r rows0] eqn:Hd|];
          try (apply (execute_query_clean _ _ _ _ _ _ Hc1 Hb)).
        injection Hb as <- <-. split; [exact Hc1|].
        intros rows Hrows. injection Hrows as <-.
        rewrite <- Hd. apply (Hc _ _ Hk).
      * rewrite (get_cached_query_miss q w Hk) in Hb.
        apply (execute_query_clean _ _ _ _ _ _ Hc Hb).
    + apply (execute_query_clean _ _ _ _ _ _ Hc Hb).
  - injection H as <- <-. split; [|discriminate].
    intros k entry Hk.
    rewrite (run_query_body_raise_keeps_cache _ _ _ _ _ _ _ Hb) in Hk.
    apply (Hc k entry Hk).
Qed.

Lemma fresh_result_is_cleaned_fetch q uc fr cw w d w' :
  run_query drv q uc fr cw w = (Return d, w') ->
  dict_get "cached" d = Some (OBool false) ->
  exists results e e',
    cursor_fetchall drv e = (Return results, e')
    /\ dict_get "data" d = Some (ORows (clean_rows results)).
Proof.
  intros H Hd. run. cases; eauto.
Qed.

(** C8.  The payload of a fresh READ result is what [fetchall] returned,
    row by row and column by column, with each value cleaned: [None]
    exactly where the database value was [None], and otherwise the [str]
    of the database value.  A payload served from the cache was stored by
    an earlier read, so in every result that has a ["data"] payload each
    value is [None] or a [str], provided the cache was filled by
    [run_query] (which keeps it so, starting from the empty cache). *)
Theorem read_payload_is_stringified :
  (forall (results : list row) (i : nat) (r : row),
      results !! i = Some r -> clean_rows results !! i = Some (clean_row r))
  /\ (forall (results : list row), length (clean_rows results) = length results)
  /\ (forall (r : row) (col : string), clean_row r !! col = clean_value <$> (r !! col))
  /\ (forall v : pyval, clean_value v = PNone <-> v = PNone)
  /\ (forall v : pyval, v <> PNone -> clean_value v = PStr (py_str v))
  /\ (forall q uc fr cw w d w',
        run_query drv q uc fr cw w = (Return d, w') ->
        dict_get "cached" d = Some (OBool false) ->
        exists results e e',
          cursor_fetchall drv e = (Return results, e')
          /\ dict_get "data" d = Some (ORows (clean_rows results)))
  /\ (forall q uc fr cw w d w',
        cache_clean w ->
        run_query drv q uc fr cw w = (Return d, w') ->
        cache_clean w'
        /\ (forall rows, dict_get "data" d = Some (ORows rows) -> clean_payload rows))
  /\ (forall (e : E) (log : list db_call), cache_clean (World ∅ e log)).
Proof.
  split.
  { intros results i r H. unfold clean_rows.
    change (map clean_row results) with (clean_row <$> results).
    rewrite list_lookup_fmap, H. reflexivity. }
  split; [intros; apply length_map|].
  split; [exact clean_row_lookup|].
  split; [exact clean_value_none|].
  split; [exact clean_value_str|].
  split; [exact fresh_result_is_cleaned_fetch|].
  split; [exact run_query_clean|].
  intros e log k entry Hk. simpl in Hk. rewrite lookup_empty in Hk. discriminate.
Qed.

(** C6.  [CACHE_TTL] is 300.  An entry is valid exactly when the clock
    reading minus its timestamp is strictly below the time to live; an
    entry whose age equals [CACHE_TTL] is not valid; a missing entry is
    not valid, and the clock is not even read for it. *)
Theorem is_cache_valid_strict :
  CACHE_TTL = 300%Z
  /\ (forall (entry : cache_entry) (ttl : Z) w,
        exists b w',
          is_cache_valid drv (Some entry) ttl w = (Return b, w')
          /\ (b = true <-> (fst (time_time drv (env w)) - timestamp entry < ttl)%Z)
          /\ _cache w' = _cache w /\ calls w' = calls w)
  /\ (forall (rows : list row) w,
        fst (is_cache_valid drv
               (Some (CacheEntry rows (fst (time_time drv (env w)) - CACHE_TTL)))
               CACHE_TTL w) = Return false)
  /\ (forall (ttl : Z) w, is_cache_valid drv None ttl w = (Return false, w)).
Proof.
  split; [reflexivity|]. split; [|split].
  - intros entry ttl w. rewrite is_cache_valid_some. eexists _, _.
    split; [reflexivity|]. split; [apply Z.ltb_lt|split; reflexivity].
  - intros rows w. rewrite is_cache_valid_some. simpl. f_equal.
    apply Z.ltb_ge. lia.
  - reflexivity.
Qed.

(** C9.  From any world [clear_cache] returns its message and leaves the
    cache empty, without touching the driver; [get_cache_info] called
    next reports [total_cached_queries = 0] and no entry. *)
Theorem clear_cache_then_info_is_empty w :
  exists w1 w2,
    clear_cache w = (Return [("message", OStr "Cache cleared successfully")], w1)
    /\ _cache w1 = ∅ /\ env w1 = env w /\ calls w1 = calls w
    /\ get_cache_info drv w1 =
         (Return [("total_cached_queries", OInt 0); ("cache_entries", OEntries [])], w2).
Proof.
  eexists _, _. split; [reflexivity|]. simpl.
  split; [reflexivity|]. split; [reflexivity|]. split; [reflexivity|].
  unfold get_cache_info. simpl. rewrite map_to_list_empty. reflexivity.
Qed.

End GatewayFacts.

(** ** The claims on concrete runs *)

(** C3 at an input where the code departs from it.  The database answers
    the query with no row.  The first call stores the empty payload; the
    second call, made at the same clock reading with [use_cache=True] and
    no forced refresh, finds that entry valid and still goes through the
    whole round trip again and returns [cached = False]. *)
Theorem empty_result_is_not_served_from_cache :
  let drv := sim_driver [] 0 no_fault in
  let q := "SELECT * FROM wp_users WHERE ID = 0" in
  let first := run_query drv q true false false (start 1000%Z) in
  let second := run_query drv q true false false (snd first) in
  fst first = Return (read_result [])
  /\ _cache (snd first) !! get_cache_key q = Some (CacheEntry [] 1000)
  /\ fst (is_cache_valid drv (_cache (snd first) !! get_cache_key q) CACHE_TTL (snd first))
     = Return true
  /\ fst second = Return (read_result [])
  /\ dict_get "cached" (read_result []) = Some (OBool false)
  /\ calls (snd second) =
       (calls (snd first)
        ++ [Connect; Cursor; Execute q; Fetchall; CursorClose; Close])%list.
Proof. vm_compute. repeat split; reflexivity. Qed.

(** C1 on a run: a [DROP TABLE] without confirmation, with three users
    cached, changes nothing. *)
Lemma unconfirmed_write_is_withheld_witness :
  is_write_query "DROP TABLE wp_logs" = true
  /\ run_query (sim_driver three_users 0 no_fault) "DROP TABLE wp_logs" true true false
       users_cached
     = (Return (withheld_result "DROP TABLE wp_logs"), users_cached).
Proof.
  split; [reflexivity|].
  apply (unconfirmed_write_is_withheld (sim_driver three_users 0 no_fault)
           "DROP TABLE wp_logs" true true users_cached).
  reflexivity.
Defined.

(** C2 on a run: a confirmed [UPDATE] empties a cache that held one entry. *)
Lemma confirmed_write_clears_cache_witness :
  is_write_query "UPDATE wp_users SET display_name='X' WHERE ID=1" = true
  /\ size (_cache users_cached) = 1%nat
  /\ exists d w',
       run_query (sim_driver [] 1 no_fault)
         "UPDATE wp_users SET display_name='X' WHERE ID=1" true false true users_cached
       = (Return d, w')
       /\ _cache w' = ∅
       /\ dict_get "success" d = Some (OBool true)
       /\ dict_get "query_type" d = Some (OStr "WRITE")
       /\ dict_get "affected_rows" d = Some (OInt 1)
       /\ calls w' =
            (calls users_cached
             ++ [Connect; Cursor;
                 Execute "UPDATE wp_users SET display_name='X' WHERE ID=1";
                 Commit; CursorClose; Close])%list.
Proof.
  split; [reflexivity|]. split; [vm_compute; reflexivity|].
  apply (confirmed_write_clears_cache (sim_driver [] 1 no_fault)
           "UPDATE wp_users SET display_name='X' WHERE ID=1" true false
           users_cached 1%Z 1200%Z).
  - reflexivity.
  - exists 1200%Z, 1200%Z, 1200%Z, 1200%Z, 1200%Z. repeat split.
Defined.

(** C5 on a run: [execute] raises for a missing table; the error comes
    back as a dictionary and the cached users stay. *)
Lemma database_error_is_reported_witness :
  let drv := sim_driver [] 0 (fault_on_execute "1146 (42S02): Table 'ofxx_db.wp_nope' doesn't exist") in
  let w' := World (_cache users_cached) 1200%Z [Connect; Cursor; Execute "SELECT * FROM wp_nope"] in
  run_query_body drv "SELECT * FROM wp_nope" true false false users_cached
  = (Raise (Error "1146 (42S02): Table 'ofxx_db.wp_nope' doesn't exist"), w')
  /\ run_query drv "SELECT * FROM wp_nope" true false false users_cached
     = (Return [("error", OStr "Database error: 1146 (42S02): Table 'ofxx_db.wp_nope' doesn't exist")], w')
  /\ _cache w' = _cache users_cached.
Proof.
  intros drv w'.
  assert (H : run_query_body drv "SELECT * FROM wp_nope" true false false users_cached
              = (Raise (Error "1146 (42S02): Table 'ofxx_db.wp_nope' doesn't exist"), w'))
    by (vm_compute; reflexivity).
  split; [exact H|].
  destruct (database_error_is_reported drv "SELECT * FROM wp_nope" true false false
              users_cached _ w' H) as (Hrun & _ & Hcache & _).
  split; [exact Hrun | exact Hcache].
Defined.

(** C10 on a run: the empty answer cached at 1000 is valid at 1100, and
    the query is sent to the database again. *)
Lemma empty_payload_is_fetched_again_witness :
  let drv := sim_driver [] 0 no_fault in
  let q := "SELECT * FROM wp_users WHERE ID = 0" in
  is_write_query q = false
  /\ _cache (nothing_cached_for q) !! get_cache_key q = Some (CacheEntry [] 1000)
  /\ (fst (time_time drv (env (nothing_cached_for q))) - 1000 < CACHE_TTL)%Z
  /\ (exists r w' rest,
        run_query drv q true false false (nothing_cached_for q) = (r, w')
        /\ calls w' = (calls (nothing_cached_for q) ++ Connect :: rest)%list
        /\ (forall d, r = Return d -> dict_get "cached" d <> Some (OBool true)))
  /\ (exists w',
        run_query drv q true false false (nothing_cached_for q)
        = (Return (read_result []), w')
        /\ dict_get "cached" (read_result []) = Some (OBool false)).
Proof.
  intros drv q.
  assert (Hq : is_write_query q = false) by reflexivity.
  assert (Hk : _cache (nothing_cached_for q) !! get_cache_key q = Some (CacheEntry [] 1000))
    by (vm_compute; reflexivity).
  assert (Hage : (fst (time_time drv (env (nothing_cached_for q)))
                  - timestamp (CacheEntry [] 1000) < CACHE_TTL)%Z)
    by (vm_compute; reflexivity).
  split; [exact Hq|]. split; [exact Hk|]. split; [exact Hage|].
  destruct (empty_payload_is_fetched_again drv q false (nothing_cached_for q)
              (CacheEntry [] 1000) Hq Hk eq_refl Hage) as [Hcall Hfresh].
  split; [exact Hcall|].
  apply (Hfresh [] 1100%Z).
  exists 1100%Z, 1100%Z, 1100%Z, 1100%Z, 1100%Z. repeat split.
Defined.

(** The scenario of the specification: three users are read and cached,
    the same query is then served from the cache, an update clears the
    cache, and the next read goes to the database again. *)
Example read_cached_write_read :
  let drv := sim_driver three_users 1 no_fault in
  let select := "SELECT * FROM wp_users" in
  let update := "UPDATE wp_users SET display_name='X' WHERE ID=1" in
  let r1 := run_query drv select true false false (start 1000%Z) in
  let r2 := run_query drv select true false false (snd r1) in
  let r3 := run_query drv update true false true (snd r2) in
  let r4 := run_query drv select true false false (snd r3) in
  (exists d1 d2 d3 d4,
      fst r1 = Return d1 /\ fst r2 = Return d2 /\ fst r3 = Return d3 /\ fst r4 = Return d4
      /\ dict_get "count" d1 = Some (OInt 3)
      /\ dict_get "cached" d1 = Some (OBool false)
      /\ dict_get "cached" d2 = Some (OBool true)
      /\ dict_get "data" d2 = dict_get "data" d1
      /\ calls (snd r2) = calls (snd r1)
      /\ dict_get "affected_rows" d3 = Some (OInt 1)
      /\ _cache (snd r3) = ∅
      /\ dict_get "cached" d4 = Some (OBool false)
      /\ length (calls (snd r4)) = 18%nat).
Proof.
  vm_compute. eexists _, _, _, _. repeat split; reflexivity.
Qed.

(** A confirmed write whose last driver call, [db.close()], raises: the
    error is reported and the cache is kept as it was, the call to
    [_cache.clear()] coming after it. *)
Example close_failure_keeps_cache :
  let drv := sim_driver [] 1 (fault_on_close "2013: Lost connection to MySQL server") in
  let r := run_query drv "UPDATE wp_users SET display_name='X' WHERE ID=1" true false true
             users_cached in
  fst r = Return (error_result "2013: Lost connection to MySQL server")
  /\ _cache (snd r) = _cache users_cached
  /\ calls (snd r) =
       [Connect; Cursor; Execute "UPDATE wp_users SET display_name='X' WHERE ID=1";
        Commit; CursorClose; Close].
Proof. vm_compute. repeat split; reflexivity. Qed.

(** Two different queries whose keys collide: the second is answered
    with the rows cached for the first. *)
Example colliding_queries_share_an_entry :
  let drv := sim_driver three_users 0 no_fault in
  let r1 := run_query drv collision_a true false false (start 1000%Z) in
  let r2 := run_query drv collision_b true false false (snd r1) in
  fst r2 = Return (cached_result (clean_rows three_users))
  /\ calls (snd r2) = calls (snd r1).
Proof. vm_compute. split; reflexivity. Qed.

(** ** Test vectors *)

Example md5_empty : get_cache_key "" = "d41d8cd98f00b204e9800998ecf8427e".
Proof. vm_compute. reflexivity. Qed.

Example md5_abc : get_cache_key "abc" = "900150983cd24fb0d6963f7d28e17f72".
Proof. vm_compute. reflexivity. Qed.

Example md5_select : get_cache_key "SELECT * FROM wp_users" = "76fa3cbe03dd265f23e729dfa6805e90".
Proof. vm_compute. reflexivity. Qed.

Example md5_two_blocks :
  get_cache_key "aaaaaaaaaaaaaaaaaaaaaaaaaaaaaaaaaaaaaaaaaaaaaaaaaaaaaaaa"
  = "3b0c8ac703f828b04c6c197006d17218".
Proof. vm_compute. reflexivity. Qed.

Example md5_collision_value : get_cache_key collision_a = "faad49866e9498fc1719f5289e7a0269".
Proof. vm_compute. reflexivity. Qed.

Example classify_examples :
  map is_write_query
    ["insert into t"; "INSERT INTO t"; "  Insert into t "; "SELECT 1"; "select"; "";
     "DROPS"; "  "; "delete from t"; "truncate t"; "replace into t"; "explain delete from t"]
  = [true; true; true; false; false; false; true; false; true; true; true; false].
Proof. vm_compute. reflexivity. Qed.

Example strip_example : Text.strip "  a b  " = "a b".
Proof. vm_compute. reflexivity. Qed.

Example str_of_int_examples : map Text.str_of_int [0; -12; 1230]%Z = ["0"; "-12"; "1230"].
Proof. vm_compute. reflexivity. Qed.

(** * Further properties *)

(** ** More about the gateway *)

Ltac run_gateway :=
  unfold run_query, try_except_Error, run_query_body, execute_query,
    get_cached_query, set_cached_query, is_cache_valid, get_db, call, now,
    cache_get, cache_set, cache_clear, bind, ret in *;
  simpl in *.

Ltac split_cases := repeat (case_match; simplify_eq; simpl in *; try done).

Section GatewayMore.

Context {E : Type} (drv : driver E).

Implicit Types (w : world E) (q : string) (d : dict).

(** With [force_refresh=True] a read with [use_cache=True] does not look
    at the cache: it goes to the database, and when the driver calls all
    return, the rows fetched replace whatever entry the query had, stamped
    with the clock reading taken after the round trip. *)
Theorem forced_refresh_replaces_entry q cw w results e' :
  is_write_query q = false ->
  read_trip drv q (env w) results e' ->
  run_query drv q true true cw w =
  (Return (read_result (clean_rows results)),
   World (<[get_cache_key q := CacheEntry (clean_rows results) (fst (time_time drv e'))]>
            (_cache w))
         (snd (time_time drv e')) (calls w ++ read_calls q)).
Proof.
  intros Hq Htrip.
  unfold run_query, try_except_Error, run_query_body. rewrite Hq. simpl.
  rewrite (execute_query_read drv q true w results e' Htrip). reflexivity.
Qed.

(** A read with [use_cache=False] always goes to the database and leaves
    the cache exactly as it was, whether the database answers or fails. *)
Theorem uncached_read_keeps_cache q fr cw w :
  is_write_query q = false ->
  _cache (snd (run_query drv q false fr cw w)) = _cache w
  /\ exists rest, calls (snd (run_query drv q false fr cw w)) = (calls w ++ Connect :: rest)%list.
Proof.
  intros Hq.
  unfold run_query, try_except_Error, run_query_body. rewrite Hq. simpl.
  destruct (execute_query drv q false false w) as [r w1] eqn:Hx.
  pose proof (execute_query_connects drv _ _ _ _ _ _ Hx) as [rest Hrest].
  assert (Hc : _cache w1 = _cache w).
  { clear Hrest. run_gateway. split_cases. }
  destruct r as [d|[msg|n]]; simpl; eauto.
Qed.

(** A read changes at most the entry of its own query: every other entry
    is as before, and an entry the query had is still there (no read ever
    evicts, not even an entry past its time to live). *)
Theorem read_touches_only_its_key q uc fr cw w :
  is_write_query q = false ->
  (forall k, k <> get_cache_key q ->
     _cache (snd (run_query drv q uc fr cw w)) !! k = _cache w !! k)
  /\ (is_Some (_cache w !! get_cache_key q) ->
      is_Some (_cache (snd (run_query drv q uc fr cw w)) !! get_cache_key q)).
Proof.
  intros Hq.
  destruct (run_query drv q uc fr cw w) as [r w'] eqn:H. simpl.
  unfold run_query, try_except_Error, run_query_body in H. rewrite Hq in H.
  simpl in H. split.
  - intros k Hk. run_gateway. split_cases; by rewrite lookup_insert_ne.
  - intros Hs. run_gateway. split_cases; by rewrite lookup_insert_eq.
Qed.

(** A write never puts anything in the cache: after the call the cache is
    the one before or it is empty, and the result has neither ["data"]
    nor ["cached"]. *)
Theorem write_never_fills_cache q uc fr cw w :
  is_write_query q = true ->
  (_cache (snd (run_query drv q uc fr cw w)) = _cache w
   \/ _cache (snd (run_query drv q uc fr cw w)) = ∅)
  /\ (forall d, fst (run_query drv q uc fr cw w) = Return d ->
        dict_get "data" d = None /\ dict_get "cached" d = None).
Proof.
  intros Hq.
  destruct (run_query drv q uc fr cw w) as [r w'] eqn:H. simpl.
  unfold run_query, try_except_Error, run_query_body in H. rewrite Hq in H.
  destruct cw; simpl in H.
  - split.
    + run_gateway. split_cases; auto.
    + intros d ->. run_gateway. split_cases.
  - injection H as <- <-. split; [left; reflexivity|].
    intros d Hd. injection Hd as <-. split; reflexivity.
Qed.

(** Each flag acts on one kind of query only: [confirm_write] changes
    nothing for a query classified READ, and [use_cache] and
    [force_refresh] change nothing for a query classified WRITE. *)
Theorem flags_act_on_one_kind_of_query :
  (forall q uc fr w,
      is_write_query q = false ->
      run_query drv q uc fr true w = run_query drv q uc fr false w)
  /\ (forall q uc fr cw w,
        is_write_query q = true ->
        run_query drv q uc fr cw w = run_query drv q false false cw w).
Proof.
  split; intros; unfold run_query, run_query_body;
    match goal with H : is_write_query _ = _ |- _ => rewrite H end; reflexivity.
Qed.

End GatewayMore.

Section GatewayProtocol.

Context {E : Type} (drv : driver E).

Implicit Types (w : world E) (q : string) (d : dict).

(** The driver calls of one [run_query] are an initial part of the
    sequence for its kind of query (connect, cursor, execute, then commit
    for a write or fetchall for a read, then the two closes), so nothing
    is called out of order or twice; [commit] is only ever called for a
    query classified WRITE that was confirmed. *)
Theorem driver_calls_follow_protocol q uc fr cw w :
  exists new,
    calls (snd (run_query drv q uc fr cw w)) = (calls w ++ new)%list
    /\ new `prefix_of` (if is_write_query q then write_calls q else read_calls q)
    /\ (In Commit new -> is_write_query q = true /\ cw = true).
Proof.
  destruct (run_query drv q uc fr cw w) as [r w'] eqn:H. simpl.
  unfold read_calls, write_calls.
  unfold run_query, try_except_Error, run_query_body in H.
  destruct (is_write_query q) eqn:Hq; destruct cw; simpl in H;
    run_gateway; simplify_eq; split_cases;
    repeat rewrite <- app_assoc; simpl;
    first
      [ exists []; split; [symmetry; apply app_nil_r|];
        split; [apply prefix_nil | intros []]
      | eexists; split; [reflexivity|];
        split; [unfold prefix; eexists; simpl; reflexivity
               | simpl; intuition (discriminate || congruence)] ].
Qed.


Lemma cache_entries_spec (items : list (string * cache_entry)) w :
  exists entries w',
    cache_entries drv items w = (Return entries, w')
    /\ _cache w' = _cache w /\ calls w' = calls w
    /\ Forall2 (fun item info =>
                  key info = Text.slice_to 16 (fst item) ++ "..."
                  /\ row_count info = len_rows (data (snd item)))
               items entries.
Proof.
  revert w. induction items as [|[k entry] items IH]; intros w; simpl.
  - eexists _, _. split; [reflexivity|]. repeat split. constructor.
  - unfold bind, now, is_cache_valid, ret. simpl.
    destruct (time_time drv (env w)) as [t1 e1]. simpl.
    destruct (time_time drv e1) as [t2 e2]. simpl.
    destruct (IH (World (_cache w) e2 (calls w))) as (entries & w' & Hr & Hc & Hl & Hf).
    rewrite Hr. eexists _, _. split; [reflexivity|].
    split; [exact Hc|]. split; [exact Hl|].
    constructor; [|exact Hf]. simpl. split; [reflexivity|].
    destruct (data entry); reflexivity.
Qed.

(** [get_cache_info] only looks: it never raises, calls nothing on the
    driver and leaves the cache as it is.  It reports the number of
    entries, lists exactly that many, and each listed entry shows the
    first 16 characters of its key and the number of rows it holds (0 for
    an empty payload). *)
Theorem get_cache_info_only_looks w :
  exists entries w',
    get_cache_info drv w =
      (Return [ ("total_cached_queries", OInt (Z.of_nat (size (_cache w))));
                ("cache_entries", OEntries entries) ], w')
    /\ _cache w' = _cache w /\ calls w' = calls w
    /\ length entries = size (_cache w)
    /\ Forall2 (fun item info =>
                  key info = Text.slice_to 16 (fst item) ++ "..."
                  /\ row_count info = len_rows (data (snd item)))
               (map_to_list (_cache w)) entries.
Proof.
  destruct (cache_entries_spec (map_to_list (_cache w)) w)
    as (entries & w' & Hr & Hc & Hl & Hf).
  exists entries, w'. unfold get_cache_info, bind, ret. rewrite Hr.
  split; [reflexivity|]. split; [exact Hc|]. split; [exact Hl|].
  split; [|exact Hf].
  rewrite <- (Forall2_length _ _ _ Hf). apply length_map_to_list.
Qed.

(** What [set_cached_query] stores, [get_cached_query] gives back for the
    same query as long as the clock reads less than [CACHE_TTL] past the
    reading taken at the store, and no longer from then on; the lookup of
    a query with another key is not affected by the store. *)
Theorem stored_rows_come_back_until_ttl q (rows : list row) w (e2 : E) (log : list db_call) :
  let stored := _cache (snd (set_cached_query drv q rows w)) in
  let t1 := fst (time_time drv (env w)) in
  let t2 := fst (time_time drv e2) in
  fst (get_cached_query drv q (World stored e2 log))
  = Return (if (t2 - t1 <? CACHE_TTL)%Z then Some rows else None)
  /\ (forall q', get_cache_key q' <> get_cache_key q ->
        fst (get_cached_query drv q' (World stored e2 log))
        = fst (get_cached_query drv q' (World (_cache w) e2 log))).
Proof.
  simpl. split.
  - run_gateway. destruct (time_time drv (env w)) as [t1 e1]. simpl.
    rewrite lookup_insert_eq. simpl.
    destruct (time_time drv e2) as [t2 e2']. simpl.
    destruct (t2 - t1 <? CACHE_TTL)%Z; reflexivity.
  - intros q' Hne.
    assert (Hl : _cache (snd (set_cached_query drv q rows w)) !! get_cache_key q'
                 = _cache w !! get_cache_key q').
    { unfold set_cached_query, bind, now, cache_set.
      destruct (time_time drv (env w)) as [t1 e1]. simpl.
      apply lookup_insert_ne. congruence. }
    destruct (_cache w !! get_cache_key q') as [entry|] eqn:Hk.
    + rewrite (get_cached_query_entry drv q' (World _ e2 log) entry Hl),
              (get_cached_query_entry drv q' (World (_cache w) e2 log) entry Hk).
      reflexivity.
    + rewrite (get_cached_query_miss drv q' (World _ e2 log) Hl),
              (get_cached_query_miss drv q' (World (_cache w) e2 log) Hk).
      reflexivity.
Qed.

End GatewayProtocol.

Lemma length_substring_0 (n : nat) (s : string) :
  String.length (substring 0 n s) = Nat.min n (String.length s).
Proof.
  revert n. induction s as [|c s IH]; intros [|n]; simpl; try reflexivity.
  rewrite IH. reflexivity.
Qed.

Lemma length_append (s t : string) :
  String.length (s ++ t) = (String.length s + String.length t)%nat.
Proof. induction s as [|c s IH]; simpl; [|rewrite IH]; reflexivity. Qed.

Lemma substring_0_all (n : nat) (s : string) :
  (String.length s <= n)%nat -> substring 0 n s = s.
Proof.
  revert n. induction s as [|c s IH]; intros [|n] H; simpl in *; try reflexivity; try lia.
  rewrite IH by lia. reflexivity.
Qed.

(** The preview of the query in the answer to an unconfirmed write is the
    query itself up to 100 characters; a longer query is cut to its first
    100 characters followed by three dots, 103 characters in all. *)
Theorem query_preview_is_bounded (q : string) :
  dict_get "query_preview" (withheld_result q) = Some (OStr (query_preview q))
  /\ (String.length (query_preview q) <= 103)%nat
  /\ ((String.length q <= 100)%nat -> query_preview q = q)
  /\ ((100 < String.length q)%nat ->
      String.length (query_preview q) = 103%nat
      /\ Text.startswith q (Text.slice_to 100 q) = true
      /\ query_preview q = Text.slice_to 100 q ++ "...").
Proof.
  split; [reflexivity|]. unfold query_preview, Text.slice_to.
  destruct (100 <? String.length q)%nat eqn:Hlen.
  - apply Nat.ltb_lt in Hlen. split.
    { rewrite length_append, length_substring_0, Nat.min_l by lia.
      change (String.length "...") with 3%nat. lia. }
    split; [intros; lia|]. intros _. split.
    { rewrite length_append, length_substring_0, Nat.min_l by lia.
      change (String.length "...") with 3%nat. lia. }
    split; [|reflexivity].
    unfold Text.startswith. apply prefix_correct.
    rewrite length_substring_0, Nat.min_l by lia.
    reflexivity.
  - apply Nat.ltb_ge in Hlen. split; [lia|]. split; [reflexivity|]. intros; lia.
Qed.

(** Only the beginning of the text is inspected: a query whose first
    character after the leading white space is not the first letter of a
    keyword (in either case) is READ, whatever follows; so is a query made
    of white space only. *)
Theorem is_write_query_looks_at_first_letter (q : string) :
  (forall c rest,
      Text.strip q = String c rest ->
      ~ In (Text.upper_char c) ["I"; "U"; "D"; "A"; "C"; "T"; "R"]%char ->
      is_write_query q = false)
  /\ (Text.all_space q = true -> is_write_query q = false).
Proof.
  split.
  - intros c rest Hs Hc.
    destruct (is_write_query q) eqn:Hw; [|reflexivity]. exfalso. apply Hc.
    apply is_write_query_iff in Hw as (kw & tail & Hin & Heq).
    rewrite Hs in Heq. simpl in Heq.
    unfold write_keywords in Hin. simpl in Hin.
    repeat (destruct Hin as [<-|Hin];
            [injection Heq as -> _; simpl; tauto|]).
    destruct Hin.
  - intros Hsp. unfold is_write_query, Text.strip.
    rewrite (TextFacts.lstrip_all_space q Hsp). reflexivity.
Qed.

(** ** [search_sql] *)

Lemma split_not_nil (sep : ascii) (s : string) : Str.split sep s <> [].
Proof.
  destruct s as [|c s]; simpl; [discriminate|].
  destruct (Ascii.eqb c sep); [discriminate|].
  destruct (Str.split sep s); discriminate.
Qed.

Lemma like_conditions_acc (op p : string) (cl : list string)
    (wc : list string) (ps : list pyval) :
  fold_left
    (fun '(where_conditions, params) col =>
       let condition := col ++ " " ++ op ++ " %s" in
       (app where_conditions [condition], app params [PStr p]))
    cl (wc, ps)
  = (app wc (map (fun col => col ++ " " ++ op ++ " %s") cl),
     app ps (map (fun _ => PStr p) cl)).
Proof.
  revert wc ps. induction cl as [|col cl IH]; intros wc ps; simpl.
  - rewrite !app_nil_r. reflexivity.
  - rewrite IH, <- !app_assoc. reflexivity.
Qed.

(** The loop of [search_sql] makes one condition and one parameter per column. *)
Lemma like_conditions_map (op p : string) (cl : list string) :
  like_conditions op p cl
  = (map (fun col => col ++ " " ++ op ++ " %s") cl, map (fun _ => PStr p) cl).
Proof. unfold like_conditions. apply like_conditions_acc. Qed.

Ltac run_search :=
  unfold search_sql, try_except_Error, search_sql_body, get_db, call, bind, ret in *;
  simpl in *.

Section SearchFacts.

Context {E : Type} (drv : driver E)
        (exec : string -> list pyval -> E -> outcome unit * E).

Implicit Types (w : world E) (term : string) (table columns : option string).

(** The searching part of [search_sql], once the arguments are accepted. *)
Lemma search_sql_body_cache term table columns uw limit cs w r w' :
  search_sql_body drv exec term table columns uw limit cs w = (r, w') ->
  _cache w' = _cache w.
Proof.
  intros H. unfold search_sql_body in H.
  repeat (case_match; try (injection H as <- <-; reflexivity)).
  all: rewrite like_conditions_map in *; simplify_eq.
  all: run_search; split_cases.
Qed.

(** [search_sql] neither reads nor writes the cache: whatever the
    arguments and whatever the database does, the cache after the call is
    the cache before it.  Searches are never answered from the cache and
    never stored in it. *)
Theorem search_never_touches_cache term table columns uw limit cs w :
  _cache (snd (search_sql drv exec term table columns uw limit cs w)) = _cache w.
Proof.
  unfold search_sql, try_except_Error.
  destruct (search_sql_body drv exec term table columns uw limit cs w) as [r w'] eqn:H.
  apply search_sql_body_cache in H.
  destruct r as [d|[msg|n]]; exact H.
Qed.

(** [search_sql] asks before it searches.  When the search term is empty
    or white space, when it is a single character searched with wild
    cards, when no table is named, or when no columns are named and the
    table name suggests none, the answer asks for clarification and
    nothing happens: no driver call, no change of the cache. *)
Theorem search_asks_before_searching term table columns uw limit cs w :
  String.length (Text.strip term) = 0%nat
  \/ (String.length (Text.strip term) = 1%nat /\ uw = true)
  \/ not_str table = true
  \/ (not_str columns = true /\ forall t, table = Some t -> default_columns t = None) ->
  exists d,
    search_sql drv exec term table columns uw limit cs w = (Return d, w)
    /\ sdict_get "needs_clarification" d = Some (SBool true)
    /\ sdict_get "data" d = None.
Proof.
  intros H. unfold search_sql, try_except_Error, search_sql_body.
  destruct (String.eqb term "" || (String.length (Text.strip term) =? 0)%nat) eqn:H0.
  { eexists. split; [reflexivity|]. split; reflexivity. }
  apply orb_false_iff in H0 as [_ H0]. apply Nat.eqb_neq in H0.
  destruct H as [H|H]; [contradiction|].
  destruct ((String.length (Text.strip term) =? 1)%nat && uw) eqn:H1.
  { eexists. split; [reflexivity|]. split; reflexivity. }
  destruct H as [[Hl Hu]|H].
  { rewrite Hl, Hu in H1. discriminate. }
  destruct table as [[|c t]|];
    try (eexists; split; [reflexivity|]; split; reflexivity).
  destruct H as [H|[Hc Hd]]; [discriminate|].
  rewrite Hc, (Hd _ eq_refl).
  eexists. split; [reflexivity|]. split; reflexivity.
Qed.


(** A search that returns rows went through the whole round trip once.
    The rows are the fetched rows with their values cleaned, ["count"] is
    their number, and the warning is absent exactly when the count is
    below [limit]: the function does not cut the rows down to [limit]
    itself, it reports what the database sent. *)
Theorem search_reports_what_was_fetched term table columns uw limit cs w d w' rows :
  search_sql drv exec term table columns uw limit cs w = (Return d, w') ->
  sdict_get "data" d = Some (SRows rows) ->
  sdict_get "count" d = Some (SInt (Z.of_nat (length rows)))
  /\ (sdict_get "warning" d = Some SNone <-> (Z.of_nat (length rows) < limit)%Z)
  /\ clean_payload rows
  /\ (exists results e e',
        cursor_fetchall drv e = (Return results, e') /\ rows = clean_rows results)
  /\ (exists query, calls w' = (calls w ++ read_calls query)%list).
Proof.
  intros H Hd. unfold search_sql, try_except_Error in H.
  destruct (search_sql_body drv exec term table columns uw limit cs w)
    as [[d0|[m|n]] w0] eqn:Hb; simplify_eq.
  2: { unfold ret in H. simplify_eq. unfold search_error_result in Hd.
       repeat case_match; discriminate. }
  unfold search_sql_body in Hb.
  repeat (case_match; try (injection Hb as <- <-; discriminate)).
  all: rewrite like_conditions_map in *; simplify_eq.
  all: run_search; split_cases.
  all: try (unfold search_result in Hd; simpl in Hd; simplify_eq).
  all: split; [reflexivity|].
  all: split;
    [ unfold search_result; simpl; repeat case_match; try congruence;
      repeat match goal with
             | H : (_ <=? _)%Z = true |- _ => apply Z.leb_le in H
             | H : (_ <=? _)%Z = false |- _ => apply Z.leb_gt in H
             end;
      split; intros; first [discriminate | lia | reflexivity] |].
  all: split; [apply clean_payload_clean_rows|].
  all: split; [eauto|].
  all: eexists; unfold read_calls; repeat rewrite <- app_assoc; reflexivity.
Qed.

(** The answer ["No valid columns specified."] is never given: splitting
    the column list at commas yields at least one name, be it empty, so a
    column list such as [","] is searched with empty column names. *)
Theorem search_always_finds_a_column term table columns uw limit cs w :
  fst (search_sql drv exec term table columns uw limit cs w)
  <> Return no_valid_columns_result.
Proof.
  unfold search_sql, try_except_Error.
  destruct (search_sql_body drv exec term table columns uw limit cs w)
    as [[d0|[m|n]] w0] eqn:Hb; simpl; try discriminate.
  2: { unfold ret, search_error_result. simpl.
       repeat case_match; intros Hne; vm_compute in Hne; discriminate. }
  unfold search_sql_body in Hb.
  repeat (case_match; try (injection Hb as <- <-; intros Hne; vm_compute in Hne; discriminate)).
  all: try (match goal with
            | H : map _ (Str.split ?a ?b) = [] |- _ =>
                apply map_eq_nil in H; destruct (split_not_nil _ _ H)
            end).
  all: rewrite like_conditions_map in *; simplify_eq.
  all: run_search; split_cases.
Qed.

(** The text sent to [execute] is fixed by the table, the columns and
    the case flag: the search term, the wild-card flag and the limit do
    not enter it (they travel as bound parameters). *)
Theorem search_text_ignores_term table columns cs :
  exists text,
    forall term uw limit w query,
      In (Execute query) (calls (snd (search_sql drv exec term table columns uw limit cs w))) ->
      In (Execute query) (calls w) \/ query = text.
Proof.
  set (text :=
         match table with
          | Some t =>
              match (if not_str columns then default_columns t else columns) with
              | Some c =>
                  search_query t
                    (map (fun col => col ++ " " ++ (if cs then "LIKE BINARY" else "LIKE") ++ " %s")
                         (map Text.strip (Str.split "," c)))
              | None => ""
              end
          | None => ""
          end).
  exists text. intros term uw limit w query.
  unfold search_sql, try_except_Error.
  destruct (search_sql_body drv exec term table columns uw limit cs w)
    as [r w0] eqn:Hb.
  assert (Hin : In (Execute query) (calls w0) ->
                In (Execute query) (calls w) \/ query = text);
    [|destruct r as [d|[m|n]]; exact Hin].
  unfold text. clear text.
  unfold search_sql_body in Hb.
  repeat (case_match; try (injection Hb as <- <-; auto; fail)).
  all: rewrite like_conditions_map in *; simplify_eq.
  all: run_search; split_cases.
  all: rewrite ?in_app_iff; simpl; intuition (try discriminate; simplify_eq; auto).
Qed.

End SearchFacts.

(** ** The added properties on concrete runs *)

Lemma sim_read_trip (rows : list row) (n t : Z) (q : string) :
  read_trip (sim_driver rows n no_fault) q t rows t.
Proof. exists t, t, t, t, t. repeat split. Qed.

(** A forced refresh at clock reading 1200 replaces the entry stored at 1000. *)
Lemma forced_refresh_replaces_entry_witness :
  let drv := sim_driver three_users 0 no_fault in
  let q := "SELECT * FROM wp_users" in
  is_write_query q = false
  /\ _cache users_cached !! get_cache_key q = Some (CacheEntry (clean_rows three_users) 1000)
  /\ _cache (snd (run_query drv q true true false users_cached)) !! get_cache_key q
     = Some (CacheEntry (clean_rows three_users) 1200)
  /\ calls (snd (run_query drv q true true false users_cached)) = read_calls q.
Proof.
  intros drv q. split; [reflexivity|]. split; [vm_compute; reflexivity|].
  rewrite (forced_refresh_replaces_entry drv q false users_cached three_users 1200%Z
             eq_refl (sim_read_trip three_users 0 1200 q)).
  split; vm_compute; reflexivity.
Defined.

(** A read of another table with [use_cache=False] leaves the cached users alone. *)
Lemma uncached_read_keeps_cache_witness :
  let drv := sim_driver three_users 0 no_fault in
  let q := "SELECT * FROM wp_posts" in
  is_write_query q = false
  /\ _cache (snd (run_query drv q false false false users_cached)) = _cache users_cached
  /\ exists rest,
       calls (snd (run_query drv q false false false users_cached))
       = (calls users_cached ++ Connect :: rest)%list.
Proof.
  intros drv q. split; [reflexivity|].
  exact (uncached_read_keeps_cache drv q false false users_cached eq_refl).
Defined.

(** A cached read of another table keeps the entry of the users. *)
Lemma read_touches_only_its_key_witness :
  let drv := sim_driver three_users 0 no_fault in
  let q := "SELECT * FROM wp_posts" in
  is_write_query q = false
  /\ get_cache_key "SELECT * FROM wp_users" <> get_cache_key q
  /\ _cache (snd (run_query drv q true false false users_cached))
       !! get_cache_key "SELECT * FROM wp_users"
     = _cache users_cached !! get_cache_key "SELECT * FROM wp_users".
Proof.
  intros drv q.
  assert (Hne : get_cache_key "SELECT * FROM wp_users" <> get_cache_key q)
    by (intros H; vm_compute in H; discriminate).
  split; [reflexivity|]. split; [exact Hne|].
  exact (proj1 (read_touches_only_its_key drv q true false false users_cached eq_refl)
           _ Hne).
Defined.

(** A confirmed [DELETE] that fails at [commit] keeps the cache; it never adds to it. *)
Lemma write_never_fills_cache_witness :
  let drv := sim_driver [] 1 (fun c => match c with Commit => Some (Error "1205: Lock wait timeout exceeded") | _ => None end) in
  let q := "DELETE FROM wp_users WHERE ID=3" in
  is_write_query q = true
  /\ (_cache (snd (run_query drv q true false true users_cached)) = _cache users_cached
      \/ _cache (snd (run_query drv q true false true users_cached)) = ∅).
Proof.
  intros drv q. split; [reflexivity|].
  exact (proj1 (write_never_fills_cache drv q true false true users_cached eq_refl)).
Defined.


(** Three users read at 1000 are served from the cache at 1299. *)
Lemma repeated_read_of_rows_witness :
  let drv := sim_driver three_users 0 no_fault in
  let q := "SELECT * FROM wp_users" in
  let rows := clean_rows three_users in
  let w1 := World {[ get_cache_key q := CacheEntry rows 1000 ]} 1000%Z (read_calls q) in
  let w2 := World (_cache w1) 1299%Z [] in
  run_query drv q true false false (start 1000%Z) = (Return (read_result rows), w1)
  /\ run_query drv q true false false w2 = (Return (cached_result rows), w2).
Proof.
  intros drv q rows w1 w2.
  assert (H1 : run_query drv q true false false (start 1000%Z)
               = (Return (read_result rows), w1)) by (vm_compute; reflexivity).
  split; [exact H1|].
  assert (Hne : rows <> []) by (unfold rows, clean_rows, three_users; discriminate).
  destruct (repeated_read_of_rows drv q false false false (start 1000%Z)
              (read_result rows) w1 rows w2 eq_refl H1 eq_refl Hne eq_refl)
    as (entry & Hk & Hd & Hhit & _).
  assert (Hk' : _cache w1 !! get_cache_key q = Some (CacheEntry rows 1000))
    by (vm_compute; reflexivity).
  rewrite Hk' in Hk. injection Hk as <-.
  apply Hhit. vm_compute. reflexivity.
Defined.

(** The call [search_sql("admin", use_wildcard=True)] of the docstring
    names no table: it asks which one and searches nothing. *)
Lemma search_asks_before_searching_witness :
  let drv := sim_driver three_users 0 no_fault in
  not_str None = true
  /\ exists d,
       search_sql drv (sim_execute_params no_fault) "admin" None None true 100 false
         users_cached = (Return d, users_cached)
       /\ sdict_get "needs_clarification" d = Some (SBool true)
       /\ sdict_get "data" d = None.
Proof.
  intros drv. split; [reflexivity|].
  apply (search_asks_before_searching drv (sim_execute_params no_fault)
           "admin" None None true 100%Z false users_cached).
  right. right. left. reflexivity.
Defined.


(** A search for [john] in [wp_users] with the default columns and a
    limit of 3: three rows come back, and the warning is there because
    the count reaches the limit. *)
Lemma search_reports_what_was_fetched_witness :
  let drv := sim_driver three_users 0 no_fault in
  let exec := sim_execute_params no_fault in
  let r := search_sql drv exec "john" (Some "wp_users") None true 3 false (start 1000%Z) in
  exists d,
    r = (Return d, snd r)
    /\ sdict_get "data" d = Some (SRows (clean_rows three_users))
    /\ sdict_get "count" d = Some (SInt 3)
    /\ sdict_get "warning" d <> Some SNone
    /\ sdict_get "search_pattern" d = Some (SStr "%john%").
Proof.
  intros drv exec r.
  set (d := search_result (clean_rows three_users) "wp_users"
              ["user_login"; "user_email"; "display_name"; "user_nicename"]
              "%john%" "john" 3).
  assert (Hr : r = (Return d, snd r)) by (vm_compute; reflexivity).
  exists d. split; [exact Hr|].
  assert (Hd : sdict_get "data" d = Some (SRows (clean_rows three_users))) by reflexivity.
  split; [exact Hd|].
  destruct (search_reports_what_was_fetched drv exec "john" (Some "wp_users") None true
              3%Z false (start 1000%Z) d (snd r) (clean_rows three_users) Hr Hd)
    as (Hcount & Hwarn & _).
  split; [exact Hcount|]. split; [|reflexivity].
  intros Hnone. apply Hwarn in Hnone. vm_compute in Hnone. discriminate.
Defined.
